(** * Sandbox lifecycle orchestration: worktree runtime and worktree sandbox service

    A shallow embedding of
      - [openhands/app_server/sandbox/worktree_sandbox_service.py]
        (class [WorktreeSandboxService], module global [_worktrees]) and
      - [openhands/runtime/impl/worktree/worktree_runtime.py]
        (class [WorktreeRuntime]).

    The Python code talks to the operating system: directories, child
    processes, TCP ports, the [git] tool, HTTP probes and the wall clock.
    All of this is made explicit here: a [World] holds the part of the
    operating system the code can observe or change together with the
    Python objects the code mutates, and an [Env] holds the answers of
    everything that is outside the program (will this port bind, does this
    git command succeed, what does the liveness probe answer at time t).
    Python functions are computations in a small state and exception monad
    over [World]; a third outcome, [Hang], stands for a call that never
    returns (an unbounded [process.wait()] on a process that never exits).

    Time is counted in whole seconds. *)

From stdpp Require Import gmap strings list pretty.
From Stdlib Require Import ZArith Lia Ascii.

Local Open Scope string_scope.

(** ** Exceptions *)

(** The Python exception classes that the two source files raise, catch or
    let through.  Every one of them derives from [Exception], and no two of
    them are related by inheritance: in particular
    [AgentRuntimeDisconnectedError] derives from [AgentRuntimeError], not
    from the builtin [ConnectionError], and the httpx errors are not
    builtin connection errors. *)
Inductive exn : Type :=
| SandboxError (msg : string)          (* openhands.app_server.errors *)
| AgentRuntimeError (msg : string)     (* openhands.core.exceptions *)
| AgentRuntimeDisconnectedError (msg : string)
| RuntimeError (msg : string)
| CalledProcessError                   (* subprocess, check=True *)
| SubprocessTimeoutExpired             (* subprocess.TimeoutExpired *)
| OSError
| OverflowError
| ConnectionError                      (* the builtin *)
| HttpxConnectError
| HttpxConnectTimeout
| OtherError (name : string)           (* any other exception class *)
| NoSuchProcess                        (* psutil *)
| AccessDenied
| PsTimeoutExpired.

(** ** The operating system *)

(** What is known about a live process: when it is scheduled to exit
    ([None]: it keeps running), whether the process table refuses to show it
    or to signal it, and how long it takes to exit after SIGTERM and after
    SIGKILL ([None]: the signal does not make it exit). *)
Record proc : Type := mkProc {
  exit_at : option nat;
  denied_lookup : bool;
  denied_signal : bool;
  term_delay : option nat;
  kill_delay : option nat
}.

Inductive git_cmd : Type :=
| GitRevParse (path : string)
| GitInit (cwd : string)
| GitConfigEmail (cwd : string)
| GitConfigName (cwd : string)
| GitAddAll (cwd : string)
| GitCommit (cwd : string)
| GitWorktreeAdd (cwd path : string)
| GitWorktreeRemove (cwd path : string).

(** Externally visible actions, recorded in the order they happen. *)
Inductive event : Type :=
| EvGit (c : git_cmd)
| EvMakedirs (path : string)
| EvRmtree (path : string)
| EvSpawn (cwd : string) (pid : nat)
| EvTerminate (pid : nat)
| EvKill (pid : nat)
| EvWait (pid : nat) (timeout : option nat)
| EvProbe (port : Z)
| EvSleep (seconds : nat).

(** ** Records of the two source files *)

(** [class WorktreeInfo(BaseModel)], [model_config = ConfigDict(frozen=True)].
    There is no status field. *)
Record WorktreeInfo : Type := mkWorktreeInfo {
  pid : nat;
  port : Z;
  worktree_path : string;
  user_id : option string;
  session_api_key : string;
  created_at : nat;
  sandbox_spec_id : string
}.

(** [@dataclass class ActionExecutionServerInfo]; the two thread fields carry
    no data of their own. *)
Record ActionExecutionServerInfo : Type := mkServerInfo {
  process : nat;
  execution_server_port : Z;
  vscode_port : Z;
  app_ports : list Z;
  si_worktree_path : string;
  si_worktree_name : string
}.

(** ** The world *)

Record World : Type := mkWorld {
  dirs : gset string;                      (* directories that exist *)
  procs : gmap nat proc;                   (* process table *)
  now : nat;                               (* wall clock, seconds *)
  trace : list event;
  _worktrees : list (string * WorktreeInfo);   (* module global, insertion order *)
  self_worktree_path : option string;      (* WorktreeRuntime.worktree_path *)
  _server_info : option ActionExecutionServerInfo;
  _runtime_initialized : bool
}.

Definition set_dirs (f : gset string → gset string) (w : World) : World :=
  mkWorld (f (dirs w)) (procs w) (now w) (trace w) (_worktrees w)
          (self_worktree_path w) (_server_info w) (_runtime_initialized w).
Definition set_procs (f : gmap nat proc → gmap nat proc) (w : World) : World :=
  mkWorld (dirs w) (f (procs w)) (now w) (trace w) (_worktrees w)
          (self_worktree_path w) (_server_info w) (_runtime_initialized w).
Definition set_now (t : nat) (w : World) : World :=
  mkWorld (dirs w) (procs w) t (trace w) (_worktrees w)
          (self_worktree_path w) (_server_info w) (_runtime_initialized w).
Definition log_event (e : event) (w : World) : World :=
  mkWorld (dirs w) (procs w) (now w) (trace w ++ [e]) (_worktrees w)
          (self_worktree_path w) (_server_info w) (_runtime_initialized w).
Definition set_worktrees (r : list (string * WorktreeInfo)) (w : World) : World :=
  mkWorld (dirs w) (procs w) (now w) (trace w) r
          (self_worktree_path w) (_server_info w) (_runtime_initialized w).
Definition set_self_worktree_path (p : option string) (w : World) : World :=
  mkWorld (dirs w) (procs w) (now w) (trace w) (_worktrees w)
          p (_server_info w) (_runtime_initialized w).
Definition set_server_info (s : option ActionExecutionServerInfo) (w : World) : World :=
  mkWorld (dirs w) (procs w) (now w) (trace w) (_worktrees w)
          (self_worktree_path w) s (_runtime_initialized w).
Definition set_runtime_initialized (b : bool) (w : World) : World :=
  mkWorld (dirs w) (procs w) (now w) (trace w) (_worktrees w)
          (self_worktree_path w) (_server_info w) b.

(** A process is alive when it is in the process table and its scheduled
    exit, if any, lies in the future. *)
Definition proc_alive (w : World) (p : nat) : bool :=
  match procs w !! p with
  | Some pr => match exit_at pr with
               | Some t => (now w <? t)%nat
               | None => true
               end
  | None => false
  end.

(** ** The monad *)

Inductive Res (A : Type) : Type :=
| Ret (a : A) (w : World)
| Raise (e : exn) (w : World)
| Hang.
Arguments Ret {A} a w.
Arguments Raise {A} e w.
Arguments Hang {A}.

Definition M (A : Type) : Type := World → Res A.

Definition ret {A} (a : A) : M A := λ w, Ret a w.
Definition raise {A} (e : exn) : M A := λ w, Raise e w.
Definition bind {A B} (m : M A) (k : A → M B) : M B :=
  λ w, match m w with
       | Ret a w' => k a w'
       | Raise e w' => Raise e w'
       | Hang => Hang
       end.

(** [try: m except <classes>: h]: the handler says which exceptions it
    takes ([Some]) and which pass through ([None]). *)
Definition try_except {A} (m : M A) (h : exn → option (M A)) : M A :=
  λ w, match m w with
       | Raise e w' => match h e with
                       | Some k => k w'
                       | None => Raise e w'
                       end
       | r => r
       end.

Definition get : M World := λ w, Ret w w.
Definition modify (f : World → World) : M unit := λ w, Ret tt (f w).

Notation "'do' x <- m ; k" := (bind m (λ x, k))
  (at level 10, x name, m at level 100, k at level 200).
Notation "m ;; k" := (bind m (λ _, k))
  (at level 100, k at level 200, right associativity).

(** [except Exception: h] *)
Definition except_Exception {A} (m : M A) (h : exn → M A) : M A :=
  try_except m (λ e, Some (h e)).

(** ** Paths *)

Fixpoint ends_with_slash (s : string) : bool :=
  match s with
  | EmptyString => false
  | String c EmptyString => Ascii.eqb c "/"%char
  | String _ rest => ends_with_slash rest
  end.

(** [os.path.join(a, b)] on POSIX, two arguments. *)
Definition path_join (a b : string) : string :=
  if String.prefix "/" b then b
  else if String.eqb a "" || ends_with_slash a then a ++ b
  else a ++ "/" ++ b.

(** [d] is [path] or lies below it. *)
Definition under (path d : string) : bool :=
  String.eqb d path || String.prefix (path ++ "/") d.

(** ** The environment *)

Inductive bind_result : Type :=
| BindOk                       (* the socket bound; it is closed at once *)
| BindOSError                  (* [OSError], e.g. address in use *)
| BindRaises (e : exn).        (* anything that is not an [OSError] *)

(** Everything outside the program.  The first three fields are the
    dataclass fields of [WorktreeSandboxService] that the modelled methods
    read; the last block holds the constructor arguments and configuration
    of [WorktreeRuntime] and the helpers it imports from modules that are
    not part of the two source files. *)
Record Env : Type := mkEnv {
  svc_user_id : option string;
  base_working_dir : string;
  base_port : Z;
  get_sandbox_spec : string → bool;
  socket_bind : Z → bind_result;
  makedirs_ok : string → bool;
  git_ok : git_cmd → gset string → bool;
  rmtree_ok : string → bool;
  popen : string → nat → option (nat * proc);
  (* [httpx_client.get(.../alive, timeout=2.0)] for a port at a time:
     status code or exception, and how long the call took *)
  http_get_alive : Z → nat → (Z + exn) * nat;
  (* WorktreeRuntime *)
  sid : string;
  base_repo_path : string;
  environ_worktree_base_dir : option string;
  tempdir : string;
  attach_to_existing : bool;
  config_vscode_port : option Z;
  find_available_tcp_port : Z → Z → Z;
  (* [ActionExecutionClient.check_if_alive] for a port at a time: returns
     ([None]) or raises, and how long the call took *)
  check_if_alive : Z → nat → option exn * nat;
  setup_initial_env : option exn;
  should_exit : nat → bool
}.

Definition omin (a b : option nat) : option nat :=
  match a, b with
  | Some x, Some y => Some (Nat.min x y)
  | Some x, None => Some x
  | None, _ => b
  end.

Section Primitives.
Variable env : Env.

Definition sleep (n : nat) : M unit :=
  modify (λ w, log_event (EvSleep n) (set_now (now w + n) w)).

(** [os.path.exists] *)
Definition path_exists (p : string) : M bool :=
  λ w, Ret (bool_decide (p ∈ dirs w)) w.

(** [os.makedirs(p, exist_ok=True)] *)
Definition makedirs (p : string) : M unit :=
  λ w, if makedirs_ok env p
       then Ret tt (log_event (EvMakedirs p) (set_dirs (λ d, {[p]} ∪ d) w))
       else Raise OSError w.

Definition remove_tree (p : string) (d : gset string) : gset string :=
  filter (λ x, under p x = false) d.

(** [shutil.rmtree(p, ignore_errors=True)] *)
Definition rmtree_ignore_errors (p : string) : M unit :=
  λ w, Ret tt (log_event (EvRmtree p)
                 (if rmtree_ok env p then set_dirs (remove_tree p) w else w)).

Definition git_effect (c : git_cmd) (d : gset string) : gset string :=
  match c with
  | GitInit cwd => {[path_join cwd ".git"]} ∪ d
  | GitWorktreeAdd _ p => {[p]} ∪ d
  | GitWorktreeRemove _ p => remove_tree p d
  | _ => d
  end.

(** [subprocess.run(['git', ...], check=check)]; the result says whether
    the exit status was zero. *)
Definition run_git (c : git_cmd) (check : bool) : M bool :=
  λ w, let w1 := log_event (EvGit c) w in
       if git_ok env c (dirs w) then Ret true (set_dirs (git_effect c) w1)
       else if check then Raise CalledProcessError w1
       else Ret false w1.

(** [subprocess.Popen(...)] *)
Definition spawn (cwd : string) : M nat :=
  λ w, match popen env cwd (now w) with
       | Some (p, pr) =>
           Ret p (log_event (EvSpawn cwd p) (set_procs (<[p := pr]>) w))
       | None => Raise OSError w
       end.

(** [process.poll() is not None] *)
Definition poll_exited (p : nat) : M bool :=
  λ w, Ret (negb (proc_alive w p)) w.

Definition schedule_exit (delay : proc → option nat) (t : nat) (pr : proc) : proc :=
  mkProc (omin (exit_at pr)
               (match delay pr with Some d => Some (t + d) | None => None end))
         (denied_lookup pr) (denied_signal pr) (term_delay pr) (kill_delay pr).

(** Deliver a signal to a live process. *)
Definition deliver (ev : event) (delay : proc → option nat) (denied : exn)
           (on_dead : exn + unit) (p : nat) : M unit :=
  λ w, match procs w !! p with
       | Some pr =>
           if proc_alive w p then
             if denied_signal pr then Raise denied (log_event ev w)
             else Ret tt (log_event ev
                            (set_procs (<[p := schedule_exit delay (now w) pr]>) w))
           else match on_dead with inl e => Raise e w | inr _ => Ret tt w end
       | None => match on_dead with inl e => Raise e w | inr _ => Ret tt w end
       end.

(** [Popen.terminate()] and [Popen.kill()]: nothing happens when the child
    has already exited. *)
Definition popen_terminate (p : nat) : M unit :=
  deliver (EvTerminate p) term_delay OSError (inr tt) p.
Definition popen_kill (p : nat) : M unit :=
  deliver (EvKill p) kill_delay OSError (inr tt) p.

(** [psutil.Process.terminate()] and [.kill()] *)
Definition psutil_terminate (p : nat) : M unit :=
  deliver (EvTerminate p) term_delay AccessDenied (inl NoSuchProcess) p.
Definition psutil_kill (p : nat) : M unit :=
  deliver (EvKill p) kill_delay AccessDenied (inl NoSuchProcess) p.

(** [process.wait(timeout=...)]: returns once the process has exited,
    raises [timeout_exn] when the timeout elapses first, and never returns
    when there is no timeout and the process never exits. *)
Definition wait_exit (timeout_exn : exn) (p : nat) (timeout : option nat) : M unit :=
  λ w, let w1 := log_event (EvWait p timeout) w in
       let reaped t := Ret tt (set_procs (delete p) (set_now (Nat.max (now w) t) w1)) in
       match procs w !! p with
       | None => Ret tt w1
       | Some pr =>
           match exit_at pr, timeout with
           | Some t, Some d =>
               if (t <=? now w + d)%nat then reaped t
               else Raise timeout_exn (set_now (now w + d) w1)
           | Some t, None => reaped t
           | None, Some d => Raise timeout_exn (set_now (now w + d) w1)
           | None, None => Hang
           end
       end.

(** [psutil.Process(pid)] *)
Definition psutil_Process (p : nat) : M unit :=
  λ w, match procs w !! p with
       | Some pr =>
           if proc_alive w p then
             if denied_lookup pr then Raise AccessDenied w else Ret tt w
           else Raise NoSuchProcess w
       | None => Raise NoSuchProcess w
       end.

(** [process.is_running()] *)
Definition is_running (p : nat) : M bool :=
  λ w, Ret (proc_alive w p) w.

End Primitives.

(** ** Python dictionaries, in insertion order *)

Section Dict.
Context {V : Type}.

Fixpoint dict_get (k : string) (d : list (string * V)) : option V :=
  match d with
  | [] => None
  | (k', v) :: rest => if String.eqb k k' then Some v else dict_get k rest
  end.

(** [d[k] = v]: an existing key keeps its place. *)
Fixpoint dict_set (k : string) (v : V) (d : list (string * V)) : list (string * V) :=
  match d with
  | [] => [(k, v)]
  | (k', v') :: rest =>
      if String.eqb k k' then (k', v) :: rest else (k', v') :: dict_set k v rest
  end.

(** [del d[k]] for a key that is present. *)
Fixpoint dict_del (k : string) (d : list (string * V)) : list (string * V) :=
  match d with
  | [] => []
  | (k', v') :: rest =>
      if String.eqb k k' then dict_del k rest else (k', v') :: dict_del k rest
  end.
End Dict.

(** * worktree_sandbox_service.py *)

Module Service.

(** Modelled from the spec: the enumeration [SandboxStatus] is imported from
    [sandbox_models], which is not among the source files; the members are
    the statuses the specification lists. *)
Inductive SandboxStatus : Type := STARTING | RUNNING | PAUSED | STOPPED | ERROR.

(** [ExposedUrl] and [SandboxInfo], also from [sandbox_models]: the fields
    that the service fills in. *)
Record ExposedUrl : Type := mkExposedUrl {
  eu_name : string;
  eu_url : string;
  eu_port : Z
}.

Record SandboxInfo : Type := mkSandboxInfo {
  id : string;
  status : SandboxStatus;
  si_created_at : nat;
  si_user_id : option string;
  si_sandbox_spec_id : string;
  exposed_urls : list ExposedUrl
}.

Definition AGENT_SERVER : string := "AGENT_SERVER".

Section WithEnv.
Variable env : Env.

(** [_find_unused_port]: the [while] loop, with the number of iterations
    left as fuel. *)
Fixpoint find_unused_port_loop (fuel : nat) (port : Z) : M Z :=
  match fuel with
  | O => λ _, Hang
  | S k =>
      if (port <? base_port env + 10000)%Z then
        match socket_bind env port with
        | BindOk => ret port
        | BindOSError => find_unused_port_loop k (port + 1)%Z
        | BindRaises e => raise e
        end
      else raise (SandboxError "No available ports found")
  end.

Definition _find_unused_port : M Z :=
  find_unused_port_loop (Z.to_nat 10001) (base_port env).

Definition _create_worktree_directory (sandbox_id : string) : M string :=
  let worktree_dir := path_join (base_working_dir env) sandbox_id in
  makedirs env worktree_dir ;;
  let git_dir := path_join worktree_dir ".git" in
  do present <- path_exists git_dir;
  (if negb present then
     run_git env (GitInit worktree_dir) false ;;
     run_git env (GitConfigEmail worktree_dir) false ;;
     run_git env (GitConfigName worktree_dir) false ;;
     ret tt
   else ret tt) ;;
  ret worktree_dir.

Definition _start_worktree_process (sandbox_id : string) (port : Z)
           (worktree_path session_api_key : string) : M nat :=
  except_Exception
    (do process <- spawn env worktree_path;
     sleep 2 ;;
     do exited <- poll_exited process;
     if exited then
       (* process.communicate() collects the exited child *)
       modify (set_procs (delete process)) ;;
       raise (SandboxError "Worktree process failed")
     else ret process)
    (λ _, raise (SandboxError "Failed to start worktree process")).

(** [await self.httpx_client.get(f'http://localhost:{port}/alive', timeout=2.0)] *)
Definition httpx_get_alive (port : Z) : M Z :=
  λ w, let '(r, d) := http_get_alive env port (now w) in
       let w' := log_event (EvProbe port) (set_now (now w + d) w) in
       match r with
       | inl code => Ret code w'
       | inr e => Raise e w'
       end.

(** One pass through the body of the [while] loop of
    [_wait_for_server_ready], up to the [sleep]: was a 200 received. *)
Definition probe_once (port : Z) : M bool :=
  except_Exception
    (do code <- httpx_get_alive port; ret (code =? 200)%Z)
    (λ _, ret false).

Fixpoint wait_for_server_ready_loop (fuel : nat) (port : Z)
         (start_time timeout : nat) : M bool :=
  match fuel with
  | O => λ _, Hang
  | S k =>
      do w <- get;
      if (now w - start_time <? timeout)%nat then
        do ready <- probe_once port;
        if ready then ret true
        else sleep 1 ;; wait_for_server_ready_loop k port start_time timeout
      else ret false
  end.

Definition _wait_for_server_ready (port : Z) (timeout : nat) : M bool :=
  do w <- get;
  wait_for_server_ready_loop (S timeout) port (now w) timeout.

Definition _get_sandbox_status (info : WorktreeInfo) : M SandboxStatus :=
  do running <-
    try_except
      (psutil_Process (pid info) ;; is_running (pid info))
      (λ e, match e with
            | NoSuchProcess | AccessDenied => Some (ret false)
            | _ => None
            end);
  if running then ret RUNNING else ret STOPPED.

Definition get_sandbox (sandbox_id : string) : M (option SandboxInfo) :=
  do w <- get;
  match dict_get sandbox_id (_worktrees w) with
  | None => ret None
  | Some info =>
      do st <- _get_sandbox_status info;
      ret (Some (mkSandboxInfo sandbox_id st (created_at info) (user_id info)
                               (sandbox_spec_id info) []))
  end.

Fixpoint list_items (items : list (string * WorktreeInfo)) : M (list SandboxInfo) :=
  match items with
  | [] => ret []
  | (sandbox_id, info) :: rest =>
      do st <- _get_sandbox_status info;
      do tl <- list_items rest;
      ret (mkSandboxInfo sandbox_id st (created_at info) (user_id info)
                         (sandbox_spec_id info) [] :: tl)
  end.

(** [list_sandboxes]: one page with every sandbox, [next_page_id=None]. *)
Definition list_sandboxes (page_id : option string) : M (list SandboxInfo) :=
  do w <- get;
  list_items (_worktrees w).

Fixpoint find_key (session_key : string) (items : list (string * WorktreeInfo))
  : option string :=
  match items with
  | [] => None
  | (sandbox_id, info) :: rest =>
      if String.eqb (session_api_key info) session_key then Some sandbox_id
      else find_key session_key rest
  end.

Definition find_sandbox_by_session_api_key (session_key : string)
  : M (option SandboxInfo) :=
  do w <- get;
  match find_key session_key (_worktrees w) with
  | Some sandbox_id => get_sandbox sandbox_id
  | None => ret None
  end.

Definition _worktree_to_sandbox_info (sandbox_id : string) (info : WorktreeInfo)
  : M SandboxInfo :=
  do st <- _get_sandbox_status info;
  ret (mkSandboxInfo sandbox_id st (created_at info) (user_id info)
         (sandbox_spec_id info)
         [mkExposedUrl AGENT_SERVER ("http://localhost:" ++ pretty (port info))
                       (port info)]).

Definition resume_sandbox (sandbox_id : string) : M bool := ret false.
Definition pause_sandbox (sandbox_id : string) : M bool := ret false.

Definition del_worktrees (sandbox_id : string) : M unit :=
  modify (λ w, set_worktrees (dict_del sandbox_id (_worktrees w)) w).

(** The inner [try] of [delete_sandbox]: stop the process. *)
Definition kill_process (p : nat) : M unit :=
  try_except
    (psutil_Process p ;;
     psutil_terminate p ;;
     try_except
       (wait_exit PsTimeoutExpired p (Some 5))
       (λ e, match e with
             | PsTimeoutExpired =>
                 Some (psutil_kill p ;; wait_exit PsTimeoutExpired p (Some 2))
             | _ => None
             end))
    (λ e, match e with NoSuchProcess => Some (ret tt) | _ => None end).

Definition delete_sandbox (sandbox_id : string) : M bool :=
  do w <- get;
  match dict_get sandbox_id (_worktrees w) with
  | None => ret true
  | Some info =>
      except_Exception
        (kill_process (pid info) ;;
         do present <- path_exists (worktree_path info);
         (if present then rmtree_ignore_errors env (worktree_path info)
          else ret tt) ;;
         del_worktrees sandbox_id ;;
         ret true)
        (λ _,
           do w' <- get;
           match dict_get sandbox_id (_worktrees w') with
           | Some _ => del_worktrees sandbox_id
           | None => ret tt
           end ;;
           ret true)
  end.

Definition start_sandbox (sandbox_id spec_id session_key : string) : M SandboxInfo :=
  if negb (get_sandbox_spec env spec_id) then
    raise (SandboxError "Sandbox spec not found")
  else
    do port <- _find_unused_port;
    do worktree_path <- _create_worktree_directory sandbox_id;
    do process <- _start_worktree_process sandbox_id port worktree_path session_key;
    do w <- get;
    let worktree_info :=
      mkWorktreeInfo process port worktree_path (svc_user_id env) session_key
                     (now w) spec_id in
    modify (λ w, set_worktrees (dict_set sandbox_id worktree_info (_worktrees w)) w) ;;
    do ready <- _wait_for_server_ready port 30;
    if negb ready then
      delete_sandbox sandbox_id ;;
      raise (SandboxError "Worktree sandbox failed to start")
    else _worktree_to_sandbox_info sandbox_id worktree_info.

End WithEnv.

End Service.

(** * worktree_runtime.py *)

Module Runtime.

Definition EXECUTION_SERVER_PORT_RANGE : Z * Z := (30000, 39999)%Z.
Definition VSCODE_PORT_RANGE : Z * Z := (40000, 49999)%Z.
Definition APP_PORT_RANGE_1 : Z * Z := (50000, 54999)%Z.
Definition APP_PORT_RANGE_2 : Z * Z := (55000, 59999)%Z.
Definition WORKTREE_NAME_PREFIX : string := "openhands-worktree-".

(** The exception classes named in the [tenacity.retry] decorator of
    [wait_until_alive]. *)
Definition retryable (e : exn) : bool :=
  match e with
  | ConnectionError | HttpxConnectError | HttpxConnectTimeout => true
  | _ => false
  end.

Section WithEnv.
Variable env : Env.

Definition worktree_name : string := WORKTREE_NAME_PREFIX ++ sid env.

Definition _get_worktree_base_dir : string :=
  match environ_worktree_base_dir env with
  | Some base_dir =>
      if String.eqb base_dir "" then path_join (tempdir env) "openhands-worktrees"
      else base_dir
  | None => path_join (tempdir env) "openhands-worktrees"
  end.

Definition on_CalledProcessError {A} (h : M A) (e : exn) : option (M A) :=
  match e with CalledProcessError => Some h | _ => None end.

Definition _is_git_repository (path : string) : M bool :=
  try_except (run_git env (GitRevParse path) true)
             (on_CalledProcessError (ret false)).

Definition _init_base_repository : M unit :=
  let base := base_repo_path env in
  do is_repo <- _is_git_repository base;
  if negb is_repo then
    try_except
      (run_git env (GitInit base) true ;;
       run_git env (GitConfigEmail base) true ;;
       run_git env (GitConfigName base) true ;;
       run_git env (GitAddAll base) false ;;
       run_git env (GitCommit base) false ;;
       ret tt)
      (on_CalledProcessError
         (raise (AgentRuntimeError "Failed to initialize git repository")))
  else ret tt.

Definition _remove_worktree : M unit :=
  do w <- get;
  match self_worktree_path w with
  | None => ret tt
  | Some p =>
      if String.eqb p "" then ret tt
      else
        do present <- path_exists p;
        if negb present then ret tt
        else
          except_Exception
            (run_git env (GitWorktreeRemove (base_repo_path env) p) false ;;
             do still <- path_exists p;
             if still then rmtree_ignore_errors env p else ret tt)
            (λ _, ret tt)
  end.

Definition _create_worktree : M string :=
  _init_base_repository ;;
  let worktree_base := _get_worktree_base_dir in
  makedirs env worktree_base ;;
  let worktree_path := path_join worktree_base worktree_name in
  do present <- path_exists worktree_path;
  (if present then _remove_worktree else ret tt) ;;
  try_except
    (run_git env (GitWorktreeAdd (base_repo_path env) worktree_path) true ;;
     run_git env (GitConfigEmail worktree_path) true ;;
     run_git env (GitConfigName worktree_path) true ;;
     ret worktree_path)
    (on_CalledProcessError (raise (AgentRuntimeError "Failed to create worktree"))).

Definition _find_available_ports : Z * Z * list Z :=
  let find r := find_available_tcp_port env (fst r) (snd r) in
  let execution_port := find EXECUTION_SERVER_PORT_RANGE in
  let vscode_port :=
    match config_vscode_port env with
    | Some p => if (p =? 0)%Z then find VSCODE_PORT_RANGE else p
    | None => find VSCODE_PORT_RANGE
    end in
  (execution_port, vscode_port, [find APP_PORT_RANGE_1; find APP_PORT_RANGE_2]).

Definition _start_server : M ActionExecutionServerInfo :=
  do w <- get;
  match self_worktree_path w with
  | None => raise (RuntimeError "Worktree not created")
  | Some p =>
      if String.eqb p "" then raise (RuntimeError "Worktree not created")
      else
        let '(execution_port, vscode_port, app_ports) := _find_available_ports in
        do process <-
          except_Exception (spawn env p)
            (λ _, raise (AgentRuntimeError "Failed to start server process"));
        ret (mkServerInfo process execution_port vscode_port app_ports p
                          worktree_name)
  end.

Definition _stop_server : M unit :=
  do w <- get;
  match _server_info w with
  | None => ret tt
  | Some info =>
      let process := process info in
      do exited <- poll_exited process;
      (if negb exited then
         except_Exception
           (popen_terminate process ;;
            try_except
              (wait_exit SubprocessTimeoutExpired process (Some 5))
              (λ e, match e with
                    | SubprocessTimeoutExpired =>
                        Some (popen_kill process ;;
                              wait_exit SubprocessTimeoutExpired process None)
                    | _ => None
                    end))
           (λ _, ret tt)
       else ret tt) ;;
      (* log_thread.join(timeout=2): the exit event is set, the thread ends *)
      modify (set_server_info None)
  end.

(** [self.check_if_alive()], of the base class. *)
Definition run_check_if_alive (port : Z) : M unit :=
  λ w, let '(r, d) := check_if_alive env port (now w) in
       let w' := log_event (EvProbe port) (set_now (now w + d) w) in
       match r with
       | None => Ret tt w'
       | Some e => Raise e w'
       end.

(** The body of [wait_until_alive], one attempt. *)
Definition wait_until_alive_attempt : M unit :=
  do w <- get;
  match _server_info w with
  | None => raise (AgentRuntimeDisconnectedError "Server not started")
  | Some info =>
      do exited <- poll_exited (process info);
      if exited then
        raise (AgentRuntimeDisconnectedError "Server process exited")
      else run_check_if_alive (execution_server_port info)
  end.

(** The [tenacity.retry] decorator: [retry_if_exception_type] of the three
    connection errors, [stop_after_delay(120) | stop_if_should_exit()],
    [wait_fixed(2)], [reraise=True]. *)
Fixpoint retry_loop (fuel : nat) (start_time : nat) : M unit :=
  match fuel with
  | O => λ _, Hang
  | S k =>
      try_except wait_until_alive_attempt
        (λ e, if retryable e then
                Some (do w <- get;
                      if (120 <=? now w - start_time)%nat || should_exit env (now w)
                      then raise e
                      else sleep 2 ;; retry_loop k start_time)
              else None)
  end.

Definition wait_until_alive : M unit :=
  do w <- get;
  retry_loop 61 (now w).

Definition run_setup_initial_env : M unit :=
  match setup_initial_env env with
  | None => ret tt
  | Some e => raise e
  end.

(** [connect]; status callbacks and log lines do not touch the state that
    is modelled here. *)
Definition connect : M unit :=
  except_Exception
    (do p <- _create_worktree;
     modify (set_self_worktree_path (Some p)) ;;
     do info <- _start_server;
     modify (set_server_info (Some info)) ;;
     (if negb (attach_to_existing env) then wait_until_alive else ret tt) ;;
     (if negb (attach_to_existing env) then run_setup_initial_env else ret tt) ;;
     modify (set_runtime_initialized true))
    (λ e, _stop_server ;; _remove_worktree ;; raise e).

Definition pause : M unit :=
  do w <- get;
  match _server_info w with
  | None => raise (RuntimeError "Server not started")
  | Some _ => _stop_server
  end.

Definition resume : M unit :=
  do w <- get;
  match self_worktree_path w with
  | None => raise (RuntimeError "Worktree not created")
  | Some _ =>
      do info <- _start_server;
      modify (set_server_info (Some info)) ;;
      wait_until_alive
  end.

End WithEnv.

End Runtime.

(** * Concrete environments and worlds *)

Module Examples.

(** git as it behaves on a healthy repository: [worktree add] refuses a
    path that exists, [worktree remove] needs the path to exist. *)
Definition git_default (c : git_cmd) (d : gset string) : bool :=
  match c with
  | GitWorktreeAdd _ p => bool_decide (p ∉ d)
  | GitWorktreeRemove _ p => bool_decide (p ∈ d)
  | _ => true
  end.

(** A well-behaved server process: exits one second after SIGTERM. *)
Definition tame : proc := mkProc None false false (Some 1) (Some 0).
(** Ignores SIGTERM and never exits after SIGKILL (uninterruptible). *)
Definition stuck : proc := mkProc None false false None None.
(** Ignores SIGTERM and takes 100 seconds to exit after SIGKILL. *)
Definition slow : proc := mkProc None false false None (Some 100).
(** Passes the launch check at two seconds and exits at three. *)
Definition short_lived : proc := mkProc (Some 3) false false (Some 1) (Some 0).

Definition make_env (bind : Z → bind_result) (git : git_cmd → gset string → bool)
           (spawned : option (nat * proc)) (probe : (Z + exn) * nat)
           (check : option exn * nat) : Env :=
  mkEnv None "/tmp/openhands-worktrees" 8000 (λ _, true) bind (λ _, true) git
        (λ _, true) (λ _ _, spawned) (λ _ _, probe)
        "s1" "/repo" None "/tmp" false None (λ lo _, lo) (λ _ _, check) None
        (λ _, false).

(** Everything works. *)
Definition env_ok : Env :=
  make_env (λ _, BindOk) git_default (Some (100, tame)) (inl 200%Z, 0) (None, 0).


(** The operating system cannot create the server process. *)
Definition env_no_spawn : Env :=
  make_env (λ _, BindOk) git_default None (inl 200%Z, 0) (None, 0).

(** [git config] fails (the shared configuration file is locked). *)
Definition git_config_locked (c : git_cmd) (d : gset string) : bool :=
  match c with
  | GitConfigEmail _ | GitConfigName _ => false
  | _ => git_default c d
  end.
Definition env_config_locked : Env :=
  make_env (λ _, BindOk) git_config_locked (Some (100, tame)) (inl 200%Z, 0) (None, 0).

(** The server never answers: connections are refused. *)
Definition env_refused : Env :=
  make_env (λ _, BindOk) git_default (Some (100, short_lived))
           (inr HttpxConnectError, 0) (Some HttpxConnectError, 0).


Definition empty_world : World := mkWorld ∅ ∅ 0 [] [] None None false.

Definition info_sb : WorktreeInfo :=
  mkWorktreeInfo 100 8000 "/tmp/openhands-worktrees/sb" None "key" 0 "spec".

(** One registered sandbox ["sb"] with process 100 behaving as [pr]. *)
Definition world_with (pr : proc) : World :=
  mkWorld {["/tmp/openhands-worktrees/sb"]} {[100 := pr]} 0 []
          [("sb", info_sb)] None None false.

(** The registered process is gone. *)
Definition world_dead : World :=
  mkWorld {["/tmp/openhands-worktrees/sb"]} ∅ 0 [] [("sb", info_sb)] None None false.

Definition server_100 : ActionExecutionServerInfo :=
  mkServerInfo 100 30000 40000 [50000; 55000]%Z
               "/tmp/openhands-worktrees/openhands-worktree-s1"
               "openhands-worktree-s1".

(** A runtime whose server is process 100 behaving as [pr]. *)
Definition runtime_with (pr : proc) : World :=
  mkWorld {["/tmp/openhands-worktrees/openhands-worktree-s1"]} {[100 := pr]} 0 [] []
          (Some "/tmp/openhands-worktrees/openhands-worktree-s1")
          (Some server_100) false.

(** A runtime whose server process has exited. *)
Definition runtime_dead : World :=
  mkWorld {["/tmp/openhands-worktrees/openhands-worktree-s1"]} ∅ 0 [] []
          (Some "/tmp/openhands-worktrees/openhands-worktree-s1")
          (Some server_100) false.

(** A new runtime object, with a directory left over from an earlier run at
    the place where its worktree goes. *)
Definition world_stale : World :=
  mkWorld {["/tmp/openhands-worktrees/openhands-worktree-s1"]} ∅ 0 [] []
          None None false.

End Examples.

(** * More of worktree_sandbox_service.py: file access *)

(** [posixpath.dirname] and [posixpath.basename]: the path is cut after its
    last slash. *)
Fixpoint split_at_last_slash (p : string) : string * string :=
  match p with
  | EmptyString => ("", "")
  | String c rest =>
      let '(head, tail) := split_at_last_slash rest in
      if String.eqb head "" then
        if Ascii.eqb c "/" then (String c "", rest) else ("", String c rest)
      else (String c head, tail)
  end.

Fixpoint all_slashes (s : string) : bool :=
  match s with
  | EmptyString => true
  | String c rest => Ascii.eqb c "/" && all_slashes rest
  end.

(** [s.rstrip('/')] *)
Fixpoint rstrip_slashes (s : string) : string :=
  match s with
  | EmptyString => ""
  | String c rest =>
      if all_slashes (String c rest) then "" else String c (rstrip_slashes rest)
  end.

Definition dirname (p : string) : string :=
  let head := fst (split_at_last_slash p) in
  if negb (String.eqb head "") && negb (all_slashes head) then rstrip_slashes head
  else head.

Definition basename (p : string) : string := snd (split_at_last_slash p).

Module Files.

Section WithEnv.
Variable env : Env.
(** Whether [open] is allowed on a path; a missing file or a directory in
    the place of the file is decided by the disk itself. *)
Variable open_ok : string → bool.

(** [read_file]: the regular files on disk are given as a map from path
    to content. *)
Definition read_file (files : gmap string (list Byte.byte))
           (sandbox_id path : string) : M (list Byte.byte) :=
  do w <- get;
  match dict_get sandbox_id (_worktrees w) with
  | None => raise (SandboxError "Sandbox not found")
  | Some info =>
      let file_path := path_join (worktree_path info) path in
      match files !! file_path with
      | Some content => if open_ok file_path then ret content else raise OSError
      | None => raise OSError
      end
  end.

(** [os.makedirs(d, exist_ok=True)] on a disk that also has regular
    files: the empty path and a path that is a regular file are refused. *)
Definition makedirs_on (files : gmap string (list Byte.byte)) (d : string) : M unit :=
  if String.eqb d "" then raise OSError
  else match files !! d with
       | Some _ => raise OSError
       | None => makedirs env d
       end.

(** [write_file]: returns the regular files as they are after the call. *)
Definition write_file (files : gmap string (list Byte.byte))
           (sandbox_id path : string) (content : list Byte.byte)
  : M (gmap string (list Byte.byte)) :=
  do w <- get;
  match dict_get sandbox_id (_worktrees w) with
  | None => raise (SandboxError "Sandbox not found")
  | Some info =>
      let file_path := path_join (worktree_path info) path in
      makedirs_on files (dirname file_path) ;;
      do w1 <- get;
      if bool_decide (file_path ∈ dirs w1) || negb (open_ok file_path)
      then raise OSError
      else ret (<[file_path := content]> files)
  end.

(** [execute_command] *)
Definition execute_command (sandbox_id command : string) : M string :=
  raise (SandboxError "Command execution not supported for worktree sandboxes").

End WithEnv.

End Files.

(** * More of worktree_runtime.py: properties, close and delete *)

(** [s.split(sep)] for a one-character separator. *)
Fixpoint split_on (sep : ascii) (s : string) : list string :=
  match s with
  | EmptyString => [""]
  | String c rest =>
      if Ascii.eqb c sep then "" :: split_on sep rest
      else match split_on sep rest with
           | first :: others => String c first :: others
           | [] => [String c ""]
           end
  end.

(** [s.split(' ', 1)[1]] for a string that contains a space: what follows
    the first space. *)
Fixpoint after_first_space (s : string) : string :=
  match s with
  | EmptyString => ""
  | String c rest => if Ascii.eqb c " " then rest else after_first_space rest
  end.

Module Lifecycle.

Section WithEnv.
Variable env : Env.

(** [action_execution_server_url] *)
Definition action_execution_server_url : M string :=
  do w <- get;
  match _server_info w with
  | None => raise (RuntimeError "Server not started")
  | Some info => ret ("http://localhost:" ++ pretty (execution_server_port info))
  end.

(** [web_hosts]: the dictionary is filled in the order of [app_ports]. *)
Fixpoint web_hosts_from (ports : list Z) (hosts : list (string * Z)) : list (string * Z) :=
  match ports with
  | [] => hosts
  | p :: rest => web_hosts_from rest (dict_set ("http://localhost:" ++ pretty p) p hosts)
  end.

Definition web_hosts (w : World) : list (string * Z) :=
  match _server_info w with
  | Some info => web_hosts_from (app_ports info) []
  | None => []
  end.


(** The path [delete] works on. *)
Definition delete_path (conversation_id : string) : string :=
  let worktree_name := Runtime.WORKTREE_NAME_PREFIX ++ conversation_id in
  let worktree_base :=
    match environ_worktree_base_dir env with
    | Some d => d
    | None => path_join (tempdir env) "openhands-worktrees"
    end in
  path_join worktree_base worktree_name.

(** The [for] loop of [delete] over the lines of the porcelain listing: the
    path of the first worktree whose last component is the name. *)
Fixpoint find_listed_worktree (worktree_name : string) (lines : list string)
  : option string :=
  match lines with
  | [] => None
  | line :: rest =>
      if String.prefix "worktree " line then
        let wt_path := after_first_space line in
        if String.eqb (basename wt_path) worktree_name then Some wt_path
        else find_listed_worktree worktree_name rest
      else find_listed_worktree worktree_name rest
  end.

(** [delete(conversation_id)].  [listing] is what
    [git worktree list --porcelain] prints, or the exception of
    [subprocess.run]; git runs in the current directory [cwd]. *)
Definition delete (cwd : string) (listing : exn + string) (conversation_id : string)
  : M unit :=
  let worktree_name := Runtime.WORKTREE_NAME_PREFIX ++ conversation_id in
  let worktree_path := delete_path conversation_id in
  do present <- path_exists worktree_path;
  if present then
    except_Exception
      (do stdout <- match listing with
                    | inl e => raise e
                    | inr out => ret out
                    end;
       match find_listed_worktree worktree_name (split_on "010"%char stdout) with
       | Some wt_path => run_git env (GitWorktreeRemove cwd wt_path) false ;; ret tt
       | None => ret tt
       end ;;
       do still <- path_exists worktree_path;
       if still then rmtree_ignore_errors env worktree_path else ret tt)
      (λ _, ret tt)
  else ret tt.

End WithEnv.

End Lifecycle.

(** * More concrete worlds *)

Module MoreExamples.

(** One registered sandbox ["s"] whose directory is ["/w"]; its process has
    exited. *)
Definition world_small : World :=
  mkWorld {["/w"]} ∅ 0 []
          [("s", mkWorktreeInfo 1 8000 "/w" None "k" 0 "spec")] None None false.

End MoreExamples.

(** * Vocabulary of the statements *)

Local Open Scope nat_scope.
Local Open Scope list_scope.
#[local] Arguments Nat.ltb : simpl never.
#[local] Arguments Nat.leb : simpl never.

Ltac unfold_monad :=
  unfold except_Exception in *;
  unfold bind, ret, raise, get, modify, try_except in *.

(** ** Port allocation *)

Definition in_port_range (env : Env) (q : Z) : Prop :=
  (base_port env ≤ q < base_port env + 10000)%Z.

(** What a scan that starts at [port] can end in. *)
Inductive scan_outcome (env : Env) (port : Z) (w : World) : Res Z → Prop :=
| scan_found p :
    (port ≤ p < base_port env + 10000)%Z →
    socket_bind env p = BindOk →
    (∀ q, (port ≤ q < p)%Z → socket_bind env q = BindOSError) →
    scan_outcome env port w (Ret p w)
| scan_exhausted :
    (∀ q, (port ≤ q < base_port env + 10000)%Z → socket_bind env q = BindOSError) →
    scan_outcome env port w (Raise (SandboxError "No available ports found") w)
| scan_aborted p e :
    (port ≤ p < base_port env + 10000)%Z →
    socket_bind env p = BindRaises e →
    (∀ q, (port ≤ q < p)%Z → socket_bind env q = BindOSError) →
    scan_outcome env port w (Raise e w).

(** ** Status *)

(** The process table refuses to show a process. *)
Definition lookup_denied (w : World) (p : nat) : bool :=
  match procs w !! p with
  | Some pr => denied_lookup pr
  | None => false
  end.

(** The status the operating system shows for a process right now. *)
Definition observed_status (w : World) (p : nat) : Service.SandboxStatus :=
  if proc_alive w p && negb (lookup_denied w p) then Service.RUNNING
  else Service.STOPPED.

Definition sandbox_info_of (w : World) (entry : string * WorktreeInfo)
  : Service.SandboxInfo :=
  Service.mkSandboxInfo (fst entry) (observed_status w (pid (snd entry)))
    (created_at (snd entry)) (user_id (snd entry)) (sandbox_spec_id (snd entry)) [].

(** ** Stopping and deleting *)

(** Nothing but the process table, the clock and the trace differs. *)
Definition same_files (w w' : World) : Prop :=
  dirs w' = dirs w ∧ _worktrees w' = _worktrees w
  ∧ self_worktree_path w' = self_worktree_path w
  ∧ _server_info w' = _server_info w.

(** What stopping a process through psutil can end in. *)
Inductive kill_outcome (p : nat) (w : World) : Res unit → Prop :=
| kill_done w' :
    same_files w w' → now w ≤ now w' ≤ now w + 7 →
    proc_alive w' p = false →
    kill_outcome p w (Ret tt w')
| kill_denied w' :
    same_files w w' → now w' = now w →
    proc_alive w' p = true →
    kill_outcome p w (Raise AccessDenied w')
| kill_timed_out w' :
    same_files w w' → now w' = now w + 7 →
    proc_alive w' p = true →
    kill_outcome p w (Raise PsTimeoutExpired w').

(** The state [delete_sandbox] leaves behind for a registered sandbox, given
    the state [w1] in which stopping the process ended and whether it ended
    without an exception. *)
Definition after_delete (env : Env) (sandbox_id : string) (info : WorktreeInfo)
           (stopped : bool) (w1 : World) : World :=
  let w2 :=
    if stopped && bool_decide (worktree_path info ∈ dirs w1) then
      log_event (EvRmtree (worktree_path info))
        (if rmtree_ok env (worktree_path info)
         then set_dirs (remove_tree (worktree_path info)) w1 else w1)
    else w1 in
  set_worktrees (dict_del sandbox_id (_worktrees w2)) w2.

(** ** Creating *)

(** Events that take a directory away. *)
Definition is_removal (ev : event) : bool :=
  match ev with
  | EvRmtree _ | EvGit (GitWorktreeRemove _ _) => true
  | _ => false
  end.

(** [w'] comes from [w] by steps that remove no directory and leave the
    processes, the clock and the Python objects alone. *)
Definition grows (w w' : World) : Prop :=
  dirs w ⊆ dirs w'
  ∧ filter is_removal (trace w') = filter is_removal (trace w)
  ∧ procs w' = procs w ∧ now w' = now w
  ∧ _worktrees w' = _worktrees w
  ∧ self_worktree_path w' = self_worktree_path w
  ∧ _server_info w' = _server_info w.

(** Every run of [m] ends, by returning or by raising, in a world related
    to the initial one by [P]. *)
Definition ends_with {A} (P : World → World → Prop) (m : M A) : Prop :=
  ∀ w, match m w with
       | Ret _ w' | Raise _ w' => P w w'
       | Hang => False
       end.

(** Where the runtime puts its worktree, and the service its sandbox. *)
Definition worktree_dir (env : Env) : string :=
  path_join (Runtime._get_worktree_base_dir env) (Runtime.worktree_name env).

Definition sandbox_dir (env : Env) (sandbox_id : string) : string :=
  path_join (base_working_dir env) sandbox_id.

(** ** Readiness *)

(** The server process of the runtime has exited, or was never started. *)
Definition server_exited (w : World) : Prop :=
  match _server_info w with
  | Some info => proc_alive w (process info) = false
  | None => True
  end.


(** ** More vocabulary *)

(** Only the clock and the trace differ, and the clock did not go back. *)
Definition time_passes (w w' : World) : Prop :=
  dirs w' = dirs w ∧ procs w' = procs w ∧ _worktrees w' = _worktrees w
  ∧ self_worktree_path w' = self_worktree_path w
  ∧ _server_info w' = _server_info w
  ∧ now w ≤ now w'.


(** The answer [start_sandbox] gives for a registry record. *)
Definition started_info (w : World) (sandbox_id : string) (wi : WorktreeInfo)
  : Service.SandboxInfo :=
  Service.mkSandboxInfo sandbox_id (observed_status w (pid wi)) (created_at wi)
    (user_id wi) (sandbox_spec_id wi)
    [Service.mkExposedUrl Service.AGENT_SERVER
       ("http://localhost:" ++ pretty (port wi))%string (port wi)].

(** Only directories and the trace differ. *)
Definition only_dirs_change (w w' : World) : Prop :=
  procs w' = procs w ∧ now w' = now w ∧ _worktrees w' = _worktrees w
  ∧ self_worktree_path w' = self_worktree_path w
  ∧ _server_info w' = _server_info w.

(** A removal that [delete] may ask for: the tree at [path], or a git
    worktree whose last path component is [name]. *)
Definition removal_of (cwd path name : string) (ev : event) : Prop :=
  ev = EvRmtree path
  ∨ ∃ p, ev = EvGit (GitWorktreeRemove cwd p) ∧ basename p = name.

Definition host_url (p : Z) : string := ("http://localhost:" ++ pretty p)%string.

(** * Port allocation *)

Section PortAllocation.
Variable env : Env.

Lemma find_unused_port_loop_outcome fuel port w :
  (port ≤ base_port env + 10000)%Z →
  (base_port env + 10000 - port < Z.of_nat fuel)%Z →
  scan_outcome env port w (Service.find_unused_port_loop env fuel port w).
Proof.
  revert port. induction fuel as [|k IH]; intros port Hle Hfuel; [lia|].
  cbn [Service.find_unused_port_loop].
  destruct (Z.ltb_spec port (base_port env + 10000)) as [Hlt|Hge].
  - destruct (socket_bind env port) eqn:Hb.
    + apply scan_found; [lia | done | intros; lia].
    + specialize (IH (port + 1)%Z ltac:(lia) ltac:(lia)).
      assert (Hstep : ∀ p, (port ≤ p)%Z →
                (∀ q, (port + 1 ≤ q < p)%Z → socket_bind env q = BindOSError) →
                ∀ q, (port ≤ q < p)%Z → socket_bind env q = BindOSError).
      { intros p _ Hq q Hr. destruct (decide (q = port)) as [->|]; [done|].
        apply Hq. lia. }
      inversion IH; subst.
      * apply scan_found; [lia | done | by apply Hstep; [lia|]].
      * apply scan_exhausted. by apply Hstep; [lia|].
      * eapply scan_aborted; [| eassumption | by apply Hstep; [lia|]]. lia.
    + eapply scan_aborted; [| exact Hb | intros; lia]. lia.
  - apply scan_exhausted. intros; lia.
Qed.

(** The fuel of [_find_unused_port] is never used up. *)
Lemma find_unused_port_outcome w :
  scan_outcome env (base_port env) w (Service._find_unused_port env w).
Proof.
  apply find_unused_port_loop_outcome; [lia|]. rewrite Z2Nat.id; lia.
Qed.

End PortAllocation.



(** * Status queries *)

Lemma proc_alive_eq w p :
  proc_alive w p = match procs w !! p with
                   | Some pr => match exit_at pr with
                                | Some t => now w <? t
                                | None => true
                                end
                   | None => false
                   end.
Proof. reflexivity. Qed.

Lemma get_sandbox_status_observed info w :
  Service._get_sandbox_status info w = Ret (observed_status w (pid info)) w.
Proof.
  unfold Service._get_sandbox_status, observed_status, lookup_denied,
    psutil_Process, is_running, proc_alive.
  unfold_monad.
  destruct (procs w !! pid info) as [pr|] eqn:Hp; [|done].
  destruct pr as [[t|] [] ds td kd]; cbn;
    try (destruct (now w <? t)%nat eqn:Hlt); cbn; rewrite ?Hp; cbn;
    rewrite ?Hlt; done.
Qed.

Lemma get_sandbox_observed sandbox_id w :
  Service.get_sandbox sandbox_id w
  = Ret (sandbox_info_of w <$>
           ((λ i, (sandbox_id, i)) <$> dict_get sandbox_id (_worktrees w))) w.
Proof.
  unfold Service.get_sandbox. unfold bind at 1. unfold get.
  destruct (dict_get sandbox_id (_worktrees w)) as [info|]; [|done].
  unfold bind. rewrite get_sandbox_status_observed. done.
Qed.

Lemma list_items_observed items w :
  Service.list_items items w = Ret (sandbox_info_of w <$> items) w.
Proof.
  induction items as [|[k info] rest IH]; [done|].
  cbn [Service.list_items]. unfold bind.
  rewrite get_sandbox_status_observed, IH. done.
Qed.

Lemma list_sandboxes_observed page w :
  Service.list_sandboxes page w = Ret (sandbox_info_of w <$> _worktrees w) w.
Proof.
  unfold Service.list_sandboxes. unfold bind at 1. unfold get.
  apply list_items_observed.
Qed.

Lemma find_sandbox_unchanged key w :
  ∃ r, Service.find_sandbox_by_session_api_key key w = Ret r w.
Proof.
  unfold Service.find_sandbox_by_session_api_key. unfold bind at 1. unfold get.
  destruct (Service.find_key key (_worktrees w)).
  - rewrite get_sandbox_observed. eauto.
  - eauto.
Qed.

(** C10: [pause_sandbox] and [resume_sandbox] return [False] for every
    sandbox id in every state, and change nothing. *)
Theorem C10_pause_resume_unsupported (sandbox_id : string) (w : World) :
  Service.pause_sandbox sandbox_id w = Ret false w
  ∧ Service.resume_sandbox sandbox_id w = Ret false w.
Proof. split; reflexivity. Qed.

(** C9: listing, looking up by id, looking up by session key and querying
    the status leave the whole world, the registry and its records
    included, exactly as it was; the status in every answer is not read
    from the record (which has no such field) but computed at that moment
    from the process table. *)
Theorem C9_registry_reads_leave_records_alone (w : World) :
  (∀ page, Service.list_sandboxes page w
           = Ret (sandbox_info_of w <$> _worktrees w) w)
  ∧ (∀ sandbox_id, Service.get_sandbox sandbox_id w
       = Ret (sandbox_info_of w <$>
                ((λ i, (sandbox_id, i)) <$> dict_get sandbox_id (_worktrees w))) w)
  ∧ (∀ key, ∃ r, Service.find_sandbox_by_session_api_key key w = Ret r w)
  ∧ (∀ info, Service._get_sandbox_status info w
       = Ret (observed_status w (pid info)) w).
Proof.
  split; [|split; [|split]].
  - intros page. apply list_sandboxes_observed.
  - intros sandbox_id. apply get_sandbox_observed.
  - intros key. apply find_sandbox_unchanged.
  - intros info. apply get_sandbox_status_observed.
Qed.



(** * Stopping a process and deleting a sandbox *)

Lemma proc_alive_deleted w p :
  proc_alive (set_procs (delete p) w) p = false.
Proof. unfold proc_alive. cbn. by rewrite lookup_delete_eq. Qed.

(** The inner [try] of [delete_sandbox] returns within seven seconds with
    the process gone, or lets [AccessDenied] or the second [TimeoutExpired]
    through with the process still alive. *)
Lemma kill_process_outcome p w : kill_outcome p w (Service.kill_process p w).
Proof.
  remember (Service.kill_process p w) as r eqn:Hr.
  unfold Service.kill_process, psutil_Process, psutil_terminate, psutil_kill,
    deliver, wait_exit in Hr. unfold_monad.
  destruct (procs w !! p) as [[ex dl ds td kd]|] eqn:Hp.
  2:{ subst r. apply kill_done; [done|lia|]. by rewrite proc_alive_eq, Hp. }
  destruct (proc_alive w p) eqn:Ha.
  2:{ subst r. apply kill_done; [done|lia|done]. }
  cbn [denied_lookup denied_signal] in Hr.
  destruct dl.
  { subst r. by apply kill_denied. }
  rewrite Hp, Ha in Hr. cbn [denied_signal] in Hr.
  destruct ds.
  { subst r. apply kill_denied; [done|done|].
    rewrite proc_alive_eq in Ha |- *. done. }
  cbn in Hr. rewrite !lookup_insert_eq in Hr. cbn in Hr.
  destruct (omin ex _) as [t|] eqn:Ht.
  - destruct (Nat.leb_spec t (now w + 5)) as [Hle|Hgt].
    + subst r. apply kill_done; [done|cbn; lia|apply proc_alive_deleted].
    + cbn in Hr. rewrite lookup_insert_eq in Hr.
      rewrite proc_alive_eq in Hr. cbn in Hr.
      rewrite lookup_insert_eq in Hr. cbn in Hr. rewrite Ht in Hr.
      destruct (Nat.ltb_spec (now w + 5) t) as [_|]; [|lia].
      cbn in Hr. rewrite lookup_insert_eq in Hr. cbn in Hr. rewrite Ht in Hr.
      destruct (omin (Some t) _) as [t2|] eqn:Ht2; [|by destruct kd].
      destruct (Nat.leb_spec t2 (now w + 5 + 2)) as [Hle2|Hgt2]; subst r.
      * apply kill_done; [done|cbn; lia|apply proc_alive_deleted].
      * apply kill_timed_out; [done|cbn; lia|].
        rewrite proc_alive_eq. cbn. rewrite lookup_insert_eq. cbn.
        rewrite Ht, Ht2. apply Nat.ltb_lt. lia.
  - cbn in Hr. rewrite lookup_insert_eq in Hr.
    rewrite proc_alive_eq in Hr. cbn in Hr.
    rewrite lookup_insert_eq in Hr. cbn in Hr. rewrite Ht in Hr.
    cbn in Hr. rewrite lookup_insert_eq in Hr. cbn in Hr. rewrite Ht in Hr.
    destruct (omin None _) as [t2|] eqn:Ht2.
    + destruct (Nat.leb_spec t2 (now w + 5 + 2)) as [Hle2|Hgt2]; subst r.
      * apply kill_done; [done|cbn; lia|apply proc_alive_deleted].
      * apply kill_timed_out; [done|cbn; lia|].
        rewrite proc_alive_eq. cbn. rewrite lookup_insert_eq. cbn.
        rewrite Ht, Ht2. apply Nat.ltb_lt. lia.
    + subst r. apply kill_timed_out; [done|cbn; lia|].
      rewrite proc_alive_eq. cbn. rewrite lookup_insert_eq. cbn.
      by rewrite Ht, Ht2.
Qed.

Lemma dict_get_del {V} k (d : list (string * V)) : dict_get k (dict_del k d) = None.
Proof.
  induction d as [|[k' v] rest IH]; [done|]. cbn.
  destruct (String.eqb k k') eqn:Hk; [done|]. cbn. by rewrite Hk.
Qed.

Lemma under_refl p : under p p = true.
Proof. unfold under. by rewrite String.eqb_refl. Qed.

Lemma not_in_remove_tree p d : p ∉ remove_tree p d.
Proof.
  unfold remove_tree. rewrite elem_of_filter, under_refl. by intros [? _].
Qed.

Section Delete.
Variable env : Env.

Lemma delete_sandbox_absent sandbox_id w :
  dict_get sandbox_id (_worktrees w) = None →
  Service.delete_sandbox env sandbox_id w = Ret true w.
Proof. intros H. unfold Service.delete_sandbox. unfold_monad. by rewrite H. Qed.

Lemma delete_sandbox_present sandbox_id info w :
  dict_get sandbox_id (_worktrees w) = Some info →
  ∃ stopped w1 e,
    Service.delete_sandbox env sandbox_id w
    = Ret true (after_delete env sandbox_id info stopped w1)
    ∧ same_files w w1 ∧ now w ≤ now w1 ≤ now w + 7
    ∧ proc_alive w1 (pid info) = negb stopped
    ∧ Service.kill_process (pid info) w
      = (if stopped then Ret tt w1 else Raise e w1).
Proof.
  intros Hget. unfold Service.delete_sandbox. unfold_monad. rewrite Hget.
  unfold Service.del_worktrees, path_exists, rmtree_ignore_errors. unfold_monad.
  destruct (kill_process_outcome (pid info) w)
    as [w1 Hf Ht Ha | w1 Hf Ht Ha | w1 Hf Ht Ha].
  - exists true, w1, OSError. split_and!; try done; try lia.
    unfold after_delete. cbn [andb].
    destruct (bool_decide (worktree_path info ∈ dirs w1)); done.
  - exists false, w1, AccessDenied. split_and!; try done; try lia.
    destruct Hf as (_ & Hreg & _). rewrite Hreg, Hget. done.
  - exists false, w1, PsTimeoutExpired. split_and!; try done; try lia.
    destruct Hf as (_ & Hreg & _). rewrite Hreg, Hget. done.
Qed.

(** [delete_sandbox] keeps both waits bounded: it is back within seven
    seconds. *)
Lemma delete_sandbox_bounded sandbox_id w :
  ∃ w', Service.delete_sandbox env sandbox_id w = Ret true w'
        ∧ now w ≤ now w' ≤ now w + 7.
Proof.
  destruct (dict_get sandbox_id (_worktrees w)) as [info|] eqn:Hget.
  - destruct (delete_sandbox_present sandbox_id info w Hget)
      as (stopped & w1 & e & Heq & _ & Ht & _).
    eexists. split; [exact Heq|].
    unfold after_delete.
    destruct (stopped && _); [destruct (rmtree_ok _ _)|]; cbn; lia.
  - exists w. split; [by apply delete_sandbox_absent|lia].
Qed.
End Delete.

(** C6, as the claim states it, fails: the registered process ignores
    SIGTERM and does not exit within two seconds of SIGKILL; the call
    returns [True], and the directory and the process are still there. *)
Lemma C6_counterexample :
  ∃ w', Service.delete_sandbox Examples.env_ok "sb" (Examples.world_with Examples.stuck)
        = Ret true w'
        ∧ "/tmp/openhands-worktrees/sb" ∈ dirs w'
        ∧ proc_alive w' 100 = true.
Proof.
  eexists. split; [vm_compute; reflexivity|].
  split; [|vm_compute; reflexivity].
  apply (bool_decide_unpack _). vm_compute. exact I.
Qed.

(** C6, amended: [delete_sandbox] returns [True] in every case and leaves no
    registry entry for the id, so that a second call, like a call on an id
    that was never registered, returns [True] and changes nothing.  When
    stopping the process raised nothing (it was gone already, or exited
    within the graceful or the forced wait), no live process is left, and
    when moreover the removal of the tree succeeds, no workspace directory
    is left. *)
Theorem C6_delete_returns_true_and_unregisters
    (env : Env) (sandbox_id : string) (w : World) :
  ∃ w', Service.delete_sandbox env sandbox_id w = Ret true w'
        ∧ dict_get sandbox_id (_worktrees w') = None
        ∧ Service.delete_sandbox env sandbox_id w' = Ret true w'
        ∧ (dict_get sandbox_id (_worktrees w) = None → w' = w)
        ∧ (∀ info w1,
             dict_get sandbox_id (_worktrees w) = Some info →
             Service.kill_process (pid info) w = Ret tt w1 →
             proc_alive w' (pid info) = false
             ∧ (rmtree_ok env (worktree_path info) = true →
                worktree_path info ∉ dirs w')).
Proof.
  destruct (dict_get sandbox_id (_worktrees w)) as [info|] eqn:Hget.
  - destruct (delete_sandbox_present env sandbox_id info w Hget)
      as (stopped & w1 & e & Heq & Hf & Ht & Ha & Hkill).
    exists (after_delete env sandbox_id info stopped w1).
    assert (Hgone : dict_get sandbox_id
                      (_worktrees (after_delete env sandbox_id info stopped w1)) = None).
    { unfold after_delete. cbn. apply dict_get_del. }
    split_and!; [done | done | by apply delete_sandbox_absent | done |].
    intros info' w1' [= <-] Hkill'. rewrite Hkill' in Hkill.
    destruct stopped; [|done]. injection Hkill as ->.
    unfold after_delete. cbn [andb negb] in *.
    destruct (bool_decide_reflect (worktree_path info ∈ dirs w1)) as [Hin|Hnot].
    + split; [by destruct (rmtree_ok env (worktree_path info))|].
      intros ->. cbn. apply not_in_remove_tree.
    + done.
  - exists w. rewrite Hget.
    split_and!; [by apply delete_sandbox_absent | done
                | by apply delete_sandbox_absent | done | done].
Qed.

Lemma C6_witness :
  ∃ w', Service.delete_sandbox Examples.env_ok "sb" (Examples.world_with Examples.tame)
        = Ret true w'
        ∧ dict_get "sb" (_worktrees w') = None
        ∧ proc_alive w' 100 = false
        ∧ "/tmp/openhands-worktrees/sb" ∉ dirs w'.
Proof.
  destruct (C6_delete_returns_true_and_unregisters Examples.env_ok "sb"
              (Examples.world_with Examples.tame))
    as (w' & Heq & Hgone & _ & _ & Hclean).
  exists w'.
  destruct (Hclean Examples.info_sb
              (set_procs (delete 100)
                 (set_now 1
                    (log_event (EvWait 100 (Some 5))
                       (log_event (EvTerminate 100)
                          (set_procs
                             (<[100 := schedule_exit term_delay 0 Examples.tame]>)
                             (Examples.world_with Examples.tame)))))))
    as [Hdead Hdir]; [reflexivity | vm_compute; reflexivity |].
  split_and!; [done | done | exact Hdead | apply Hdir; reflexivity].
Defined.

(** C4: where the claim fails.  On a server process that keeps running,
    ignores SIGTERM and can be signalled, [_stop_server] waits five seconds,
    sends SIGKILL and then waits without any bound: for as long as the
    process takes to exit, and for ever when it does not exit. *)
Theorem C4_stop_server_forced_wait_unbounded
    (w : World) (info : ActionExecutionServerInfo) (pr : proc)
    (Hinfo : _server_info w = Some info)
    (Hproc : procs w !! process info = Some pr)
    (Hruns : exit_at pr = None)
    (Hsig : denied_signal pr = false)
    (Hterm : term_delay pr = None) :
  match kill_delay pr with
  | Some d => ∃ w', Runtime._stop_server w = Ret tt w' ∧ now w' = now w + 5 + d
  | None => Runtime._stop_server w = Hang
  end.
Proof.
  destruct pr as [ex dl ds td kd]. cbn in *. subst.
  unfold Runtime._stop_server, poll_exited, popen_terminate, popen_kill,
    deliver, wait_exit. unfold_monad.
  rewrite Hinfo. rewrite !proc_alive_eq, Hproc. cbn.
  repeat (progress (cbn; rewrite ?proc_alive_eq, ?lookup_insert_eq, ?Hproc)).
  destruct kd as [d|]; [|done].
  eexists. split; [reflexivity|]. cbn. lia.
Qed.

Lemma C4_witness :
  Runtime._stop_server (Examples.runtime_with Examples.stuck) = Hang
  ∧ ∃ w', Runtime._stop_server (Examples.runtime_with Examples.slow) = Ret tt w'
          ∧ now w' = 105.
Proof.
  split.
  - exact (C4_stop_server_forced_wait_unbounded
             (Examples.runtime_with Examples.stuck) Examples.server_100 Examples.stuck
             eq_refl eq_refl eq_refl eq_refl eq_refl).
  - exact (C4_stop_server_forced_wait_unbounded
             (Examples.runtime_with Examples.slow) Examples.server_100 Examples.slow
             eq_refl eq_refl eq_refl eq_refl eq_refl).
Defined.

(** * Creating a workspace *)

Section EndsWith.
Variable P : World → World → Prop.
Hypothesis P_refl : ∀ w, P w w.
Hypothesis P_trans : ∀ w1 w2 w3, P w1 w2 → P w2 w3 → P w1 w3.

Lemma ends_with_ret {A} (a : A) : ends_with P (ret a).
Proof. intros w. apply P_refl. Qed.

Lemma ends_with_raise {A} e : ends_with P (@raise A e).
Proof. intros w. apply P_refl. Qed.

Lemma ends_with_bind {A B} (m : M A) (k : A → M B) :
  ends_with P m → (∀ a, ends_with P (k a)) → ends_with P (bind m k).
Proof.
  intros Hm Hk w. unfold bind. specialize (Hm w).
  destruct (m w) as [a w1|e w1|]; [|done|done].
  specialize (Hk a w1). destruct (k a w1); eauto.
Qed.

Lemma ends_with_try_except {A} (m : M A) h :
  ends_with P m → (∀ e k, h e = Some k → ends_with P k) →
  ends_with P (try_except m h).
Proof.
  intros Hm Hh w. unfold try_except. specialize (Hm w).
  destruct (m w) as [a w1|e w1|]; [done| |done].
  destruct (h e) as [k|] eqn:He; [|done].
  specialize (Hh e k He w1). destruct (k w1); eauto.
Qed.
End EndsWith.

Lemma grows_refl w : grows w w.
Proof. unfold grows. split_and!; done. Qed.

Lemma grows_trans w1 w2 w3 : grows w1 w2 → grows w2 w3 → grows w1 w3.
Proof.
  unfold grows. intros (?&?&?&?&?&?&?) (?&?&?&?&?&?&?).
  split_and!; [set_solver|congruence..].
Qed.

Lemma grows_ret {A} (a : A) : ends_with grows (ret a).
Proof. apply ends_with_ret, grows_refl. Qed.

Lemma grows_raise {A} e : ends_with grows (@raise A e).
Proof. apply ends_with_raise, grows_refl. Qed.

Lemma grows_bind {A B} (m : M A) (k : A → M B) :
  ends_with grows m → (∀ a, ends_with grows (k a)) → ends_with grows (bind m k).
Proof. apply ends_with_bind, grows_trans. Qed.

Lemma grows_try_except {A} (m : M A) h :
  ends_with grows m → (∀ e k, h e = Some k → ends_with grows k) →
  ends_with grows (try_except m h).
Proof. apply ends_with_try_except, grows_trans. Qed.

Section CreateSteps.
Variable env : Env.

Lemma run_git_grows c check :
  (∀ cwd p, c ≠ GitWorktreeRemove cwd p) →
  ends_with grows (run_git env c check).
Proof.
  intros Hc w. unfold run_git.
  assert (Hlog : filter is_removal (trace w ++ [EvGit c])
                 = filter is_removal (trace w)).
  { rewrite filter_app. destruct c; cbn; rewrite ?app_nil_r; try done.
    by edestruct Hc. }
  destruct (git_ok env c (dirs w)); [|destruct check];
    unfold grows; cbn; split_and!; try done.
  destruct c; cbn; try done; set_solver.
Qed.

Lemma makedirs_grows p : ends_with grows (makedirs env p).
Proof.
  intros w. unfold makedirs.
  destruct (makedirs_ok env p); unfold grows; cbn; split_and!; try done.
  - set_solver.
  - rewrite filter_app. cbn. by rewrite app_nil_r.
Qed.

Lemma init_base_repository_grows :
  ends_with grows (Runtime._init_base_repository env).
Proof.
  unfold Runtime._init_base_repository, Runtime._is_git_repository.
  apply grows_bind.
  - apply grows_try_except; [by apply run_git_grows|].
    intros [] k [= <-]; apply grows_ret.
  - intros []; cbn; [apply grows_ret|].
    apply grows_try_except.
    + repeat (apply grows_bind; [by apply run_git_grows | intros _]).
      apply grows_ret.
    + intros [] k [= <-]. apply grows_raise.
Qed.

(** [_remove_worktree] looks at the attribute [self.worktree_path]; while
    that is unset it does nothing at all. *)
Lemma remove_worktree_unset w :
  self_worktree_path w = None → Runtime._remove_worktree env w = Ret tt w.
Proof. intros H. unfold Runtime._remove_worktree. unfold_monad. by rewrite H. Qed.

Lemma create_worktree_directory_grows sandbox_id w :
  makedirs_ok env (sandbox_dir env sandbox_id) = true →
  ∃ w1, Service._create_worktree_directory env sandbox_id w
        = Ret (sandbox_dir env sandbox_id) w1
        ∧ grows w w1 ∧ sandbox_dir env sandbox_id ∈ dirs w1.
Proof.
  intros Hmk.
  unfold Service._create_worktree_directory. fold (sandbox_dir env sandbox_id).
  unfold makedirs, path_exists, run_git. unfold_monad. rewrite Hmk. cbn.
  destruct (bool_decide _); cbn;
    repeat match goal with
           | |- context [git_ok ?e ?c ?d] => destruct (git_ok e c d); cbn
           end;
    (eexists; split; [reflexivity|]; unfold grows; cbn;
     rewrite ?filter_app; cbn; rewrite ?app_nil_r;
     split_and!; try done; set_solver).
Qed.

(** When the operating system cannot create the server process,
    [start_sandbox] raises with the sandbox directory in place: the
    failure path of [_start_worktree_process] removes nothing. *)
Lemma start_sandbox_launch_failure sandbox_id spec_id key port w :
  get_sandbox_spec env spec_id = true →
  Service._find_unused_port env w = Ret port w →
  makedirs_ok env (sandbox_dir env sandbox_id) = true →
  popen env (sandbox_dir env sandbox_id) (now w) = None →
  ∃ w', Service.start_sandbox env sandbox_id spec_id key w
        = Raise (SandboxError "Failed to start worktree process") w'
        ∧ sandbox_dir env sandbox_id ∈ dirs w'.
Proof.
  intros Hspec Hport Hmk Hspawn.
  unfold Service.start_sandbox. rewrite Hspec. cbn [negb].
  unfold bind at 1. rewrite Hport.
  unfold bind at 1.
  destruct (create_worktree_directory_grows sandbox_id w Hmk)
    as (w1 & -> & Hg & Hin).
  destruct Hg as (_ & _ & _ & Hnow & _).
  unfold bind at 1.
  unfold Service._start_worktree_process, spawn. unfold_monad.
  rewrite Hnow, Hspawn. eauto.
Qed.
End CreateSteps.

(** C1: where the claim fails.  [start_sandbox], when the server process
    cannot be created, and [connect], when [git config] fails after
    [git worktree add] has succeeded, raise to the caller and leave behind
    the workspace directory that this very call created. *)
Theorem C1_failed_create_leaves_workspace :
  (∃ w', Service.start_sandbox Examples.env_no_spawn "sb" "spec" "key"
           Examples.empty_world
         = Raise (SandboxError "Failed to start worktree process") w'
         ∧ ("/tmp/openhands-worktrees/sb" ∉ dirs Examples.empty_world)
         ∧ "/tmp/openhands-worktrees/sb" ∈ dirs w')
  ∧ (∃ w', Runtime.connect Examples.env_config_locked Examples.empty_world
           = Raise (AgentRuntimeError "Failed to create worktree") w'
           ∧ ("/tmp/openhands-worktrees/openhands-worktree-s1"
                ∉ dirs Examples.empty_world)
           ∧ "/tmp/openhands-worktrees/openhands-worktree-s1" ∈ dirs w').
Proof.
  split.
  - destruct (start_sandbox_launch_failure Examples.env_no_spawn "sb" "spec" "key"
                8000%Z Examples.empty_world) as (w' & Heq & Hin); try reflexivity.
    exists w'. split_and!; [done | set_solver | done].
  - eexists. split; [vm_compute; reflexivity|].
    split; [set_solver|]. apply (bool_decide_unpack _). vm_compute. exact I.
Qed.

(** C3: where the claim fails.  On a runtime object whose [worktree_path]
    attribute is still unset, as it is whenever [connect] runs for the
    first time, a directory that already exists at the worktree path is not
    removed: no removal is even attempted, [git worktree add] runs against
    the existing directory, which git refuses, and [_create_worktree]
    raises with the stale directory still in place. *)
Theorem C3_stale_worktree_is_not_removed (env : Env) (w : World)
    (Hfresh : self_worktree_path w = None)
    (Hstale : worktree_dir env ∈ dirs w)
    (Hgit : ∀ d, worktree_dir env ∈ d →
                 git_ok env (GitWorktreeAdd (base_repo_path env) (worktree_dir env)) d
                 = false) :
  ∃ e w', Runtime._create_worktree env w = Raise e w'
          ∧ worktree_dir env ∈ dirs w'
          ∧ filter is_removal (trace w') = filter is_removal (trace w).
Proof.
  unfold Runtime._create_worktree. fold (worktree_dir env).
  unfold bind at 1.
  pose proof (init_base_repository_grows env w) as H1.
  destruct (Runtime._init_base_repository env w) as [[] w1|e w1|]; [| |done].
  2:{ exists e, w1. destruct H1 as (?&?&_). split_and!; [done|set_solver|done]. }
  unfold bind at 1.
  pose proof (makedirs_grows env (Runtime._get_worktree_base_dir env) w1) as H2.
  destruct (makedirs env _ w1) as [[] w2|e w2|]; [| |done].
  2:{ exists e, w2. destruct H1 as (?&?&_), H2 as (?&?&_).
      split_and!; [done|set_solver|congruence]. }
  pose proof (grows_trans _ _ _ H1 H2) as (Hsub & Htr & _ & _ & _ & Hself & _).
  assert (Hin : worktree_dir env ∈ dirs w2) by set_solver.
  unfold path_exists. unfold_monad.
  rewrite (bool_decide_eq_true_2 _ Hin).
  rewrite remove_worktree_unset by congruence.
  unfold run_git. rewrite (Hgit _ Hin). cbn.
  eexists _, _. split; [reflexivity|]. cbn. split; [done|].
  rewrite filter_app. cbn. by rewrite app_nil_r.
Qed.

Lemma C3_witness :
  ∃ e w', Runtime._create_worktree Examples.env_ok Examples.world_stale = Raise e w'
          ∧ "/tmp/openhands-worktrees/openhands-worktree-s1" ∈ dirs w'
          ∧ filter is_removal (trace w') = [].
Proof.
  apply (C3_stale_worktree_is_not_removed Examples.env_ok Examples.world_stale).
  - reflexivity.
  - apply (bool_decide_unpack _). vm_compute. exact I.
  - intros d Hd. cbn. by apply bool_decide_eq_false_2; intros Hn; apply Hn.
Defined.

(** * Waiting for readiness *)

Section Readiness.
Variable env : Env.

Lemma retry_loop_S k start :
  Runtime.retry_loop env (S k) start
  = try_except (Runtime.wait_until_alive_attempt env)
      (λ e, if Runtime.retryable e then
              Some (do w <- get;
                    if (120 <=? now w - start) || should_exit env (now w)
                    then raise e
                    else sleep 2 ;; Runtime.retry_loop env k start)
            else None).
Proof. reflexivity. Qed.

(** An attempt on a server that has exited raises the disconnected error
    before any probe is sent. *)
Lemma attempt_on_exited_server w :
  server_exited w →
  ∃ msg, Runtime.wait_until_alive_attempt env w
         = Raise (AgentRuntimeDisconnectedError msg) w.
Proof.
  unfold server_exited, Runtime.wait_until_alive_attempt, poll_exited.
  unfold_monad. destruct (_server_info w) as [info|]; [|eauto].
  intros ->. cbn. eauto.
Qed.

(** One attempt only lets time pass and records the probe. *)
Lemma attempt_only_time_passes w :
  match Runtime.wait_until_alive_attempt env w with
  | Ret _ w' | Raise _ w' =>
      now w ≤ now w' ∧ procs w' = procs w ∧ _server_info w' = _server_info w
  | Hang => False
  end.
Proof.
  unfold Runtime.wait_until_alive_attempt, poll_exited, Runtime.run_check_if_alive.
  unfold_monad. destruct (_server_info w) as [info|] eqn:Hinfo;
    [|split_and!; (done || lia)].
  destruct (proc_alive w (process info)); cbn; [|split_and!; (done || lia)].
  destruct (check_if_alive env _ _) as [[e|] d]; cbn; split_and!; (done || lia).
Qed.

(** 61 attempts are enough: the decorated call always comes back. *)
Lemma retry_loop_total start fuel w :
  start ≤ now w → now w - start < 122 → 122 - (now w - start) ≤ 2 * fuel →
  Runtime.retry_loop env fuel start w ≠ Hang.
Proof.
  revert w. induction fuel as [|k IH]; intros w Hstart Hlt Hfuel; [lia|].
  rewrite retry_loop_S. unfold try_except.
  pose proof (attempt_only_time_passes w) as Hstep.
  destruct (Runtime.wait_until_alive_attempt env w) as [[] w1|e w1|];
    [done| |done].
  destruct Hstep as (Hclock & _).
  destruct (Runtime.retryable e); [|done].
  unfold bind at 1. unfold get.
  destruct (Nat.leb_spec 120 (now w1 - start)) as [|Hgo]; [done|].
  destruct (should_exit env (now w1)); [done|]. cbn [orb].
  unfold bind, sleep, modify. apply IH; cbn; lia.
Qed.

Lemma wait_until_alive_total w : Runtime.wait_until_alive env w ≠ Hang.
Proof.
  unfold Runtime.wait_until_alive. unfold bind, get.
  apply retry_loop_total; lia.
Qed.




(** One pass of the service's loop: any exception and any status other
    than 200 count as not ready. *)
Lemma probe_once_result port w :
  ∃ b, Service.probe_once env port w
       = Ret b (log_event (EvProbe port)
                  (set_now (now w + snd (http_get_alive env port (now w))) w))
       ∧ (b = true ↔ fst (http_get_alive env port (now w)) = inl 200%Z).
Proof.
  unfold Service.probe_once, Service.httpx_get_alive. unfold_monad.
  destruct (http_get_alive env port (now w)) as [[code|e] d]; cbn.
  - eexists. split; [reflexivity|]. rewrite Z.eqb_eq. split; congruence.
  - eexists. split; [reflexivity|]. done.
Qed.




End Readiness.

(** C2, as the claim states it, fails for the service: with the worker
    process gone, [_wait_for_server_ready] polls for the whole budget of 30
    seconds and returns [False]; and [start_sandbox] with a worker that
    exits one second after the launch check fails 32 seconds after it
    began, with the service's general error. *)
Lemma C2_counterexample :
  proc_alive Examples.world_dead 100 = false
  ∧ (∃ w', Service._wait_for_server_ready Examples.env_refused 8000 30
             Examples.world_dead = Ret false w'
           ∧ now w' = 30)
  ∧ (∃ w', Service.start_sandbox Examples.env_refused "sb" "spec" "key"
             Examples.empty_world
           = Raise (SandboxError "Worktree sandbox failed to start") w'
           ∧ now w' = 32).
Proof.
  split; [reflexivity|].
  split; eexists; (split; [vm_compute; reflexivity|reflexivity]).
Qed.

(** C2, amended: [WorktreeRuntime.wait_until_alive], called when the server
    process has exited (or was never started), raises
    [AgentRuntimeDisconnectedError] at once: no probe is sent, no time
    passes, nothing is retried.  The same holds for every later attempt of
    the retry loop that finds the process exited. *)
Theorem C2_wait_until_alive_on_exited_server (env : Env) (w : World)
    (Hexited : server_exited w) :
  ∃ msg, Runtime.wait_until_alive env w = Raise (AgentRuntimeDisconnectedError msg) w
         ∧ ∀ k start, Runtime.retry_loop env (S k) start w
                      = Raise (AgentRuntimeDisconnectedError msg) w.
Proof.
  destruct (attempt_on_exited_server env w Hexited) as [msg Hmsg].
  exists msg.
  assert (Hloop : ∀ k start, Runtime.retry_loop env (S k) start w
                             = Raise (AgentRuntimeDisconnectedError msg) w).
  { intros k start. rewrite retry_loop_S. unfold try_except. by rewrite Hmsg. }
  split; [|done].
  unfold Runtime.wait_until_alive. unfold bind, get. apply (Hloop 60).
Qed.

Lemma C2_witness :
  ∃ msg, Runtime.wait_until_alive Examples.env_refused Examples.runtime_dead
         = Raise (AgentRuntimeDisconnectedError msg) Examples.runtime_dead.
Proof.
  destruct (C2_wait_until_alive_on_exited_server Examples.env_refused
              Examples.runtime_dead) as (msg & Heq & _).
  - reflexivity.
  - exists msg. exact Heq.
Defined.




(** * The service's readiness wait, in full *)

Section ReadinessOutcome.
Variable env : Env.

Lemma time_passes_refl w : time_passes w w.
Proof. unfold time_passes. split_and!; done || lia. Qed.

Lemma time_passes_trans w1 w2 w3 :
  time_passes w1 w2 → time_passes w2 w3 → time_passes w1 w3.
Proof.
  unfold time_passes. intros (?&?&?&?&?&?) (?&?&?&?&?&?).
  split_and!; congruence || lia.
Qed.

Lemma wait_for_server_ready_loop_outcome port start timeout fuel w :
  start ≤ now w → timeout - (now w - start) < fuel →
  ∃ b w', Service.wait_for_server_ready_loop env fuel port start timeout w = Ret b w'
          ∧ time_passes w w'
          ∧ if b then
              ∃ t, now w ≤ t ∧ t - start < timeout
                   ∧ fst (http_get_alive env port t) = inl 200%Z
                   ∧ now w' = t + snd (http_get_alive env port t)
            else start + timeout ≤ now w'.
Proof.
  revert w. induction fuel as [|k IH]; intros w Hstart Hfuel; [lia|].
  cbn [Service.wait_for_server_ready_loop]. unfold bind at 1. unfold get.
  destruct (Nat.ltb_spec (now w - start) timeout) as [Hlt|Hge].
  - unfold bind at 1.
    destruct (probe_once_result env port w) as (b & -> & Hb).
    destruct b.
    + eexists true, _. split; [reflexivity|]. split.
      * unfold time_passes. cbn. split_and!; done || lia.
      * exists (now w). split_and!; [lia | done | by apply Hb | done].
    + unfold bind at 1, sleep at 1, modify at 1.
      set (w1 := log_event (EvSleep 1) _).
      destruct (IH w1) as (b & w' & Heq & Hpass & Hb'); [cbn; lia | cbn; lia |].
      exists b, w'. split; [done|]. split.
      * eapply time_passes_trans; [|exact Hpass].
        unfold time_passes. cbn. split_and!; done || lia.
      * destruct b; [|done].
        destruct Hb' as (t & Ht1 & Ht2 & Ht3 & Ht4).
        exists t. cbn in Ht1. split_and!; done || lia.
  - exists false, w. split_and!; [done | apply time_passes_refl | lia].
Qed.

End ReadinessOutcome.

Lemma wait_for_server_ready_outcome (env : Env) port timeout w :
  ∃ b w', Service._wait_for_server_ready env port timeout w = Ret b w'
          ∧ time_passes w w'
          ∧ if b then
              ∃ t, now w ≤ t < now w + timeout
                   ∧ fst (http_get_alive env port t) = inl 200%Z
                   ∧ now w' = t + snd (http_get_alive env port t)
            else now w + timeout ≤ now w'.
Proof.
  unfold Service._wait_for_server_ready. unfold bind, get.
  destruct (wait_for_server_ready_loop_outcome env port (now w) timeout
              (S timeout) w) as (b & w' & Heq & Hpass & Hb); [lia | lia |].
  exists b, w'. split_and!; [done | done |].
  destruct b; [|done].
  destruct Hb as (t & ? & ? & ? & ?). exists t. split_and!; done || lia.
Qed.

(** X1: [_wait_for_server_ready] never raises and always comes back.  It
    returns [True] only when a probe that was started before the deadline
    answered 200, at the moment that answer arrived, and [False] only once
    the deadline has passed; apart from the clock and the trace it changes
    nothing. *)
Theorem X1_wait_for_server_ready_sound (env : Env) (port : Z) (timeout : nat)
    (w : World) :
  ∃ b w', Service._wait_for_server_ready env port timeout w = Ret b w'
          ∧ time_passes w w'
          ∧ if b then
              ∃ t, now w ≤ t < now w + timeout
                   ∧ fst (http_get_alive env port t) = inl 200%Z
                   ∧ now w' = t + snd (http_get_alive env port t)
            else now w + timeout ≤ now w'.
Proof. apply wait_for_server_ready_outcome. Qed.



(** * Starting a sandbox, in full *)

Lemma dict_get_set {V} k (v : V) d : dict_get k (dict_set k v d) = Some v.
Proof.
  induction d as [|[k' v'] rest IH]; cbn.
  - by rewrite String.eqb_refl.
  - destruct (String.eqb k k') eqn:Hk; cbn; by rewrite Hk.
Qed.


Section StartSandbox.
Variable env : Env.

(** The launch either hands back a process that is alive two seconds after
    it was created, or raises the service's own error, whatever went wrong,
    and leaves no process of its own behind. *)
Lemma start_worktree_process_outcome sandbox_id port path key w :
  match Service._start_worktree_process env sandbox_id port path key w with
  | Ret p w' =>
      proc_alive w' p = true ∧ now w' = now w + 2
      ∧ dirs w' = dirs w ∧ _worktrees w' = _worktrees w
  | Raise e w' =>
      e = SandboxError "Failed to start worktree process"
      ∧ dirs w' = dirs w ∧ _worktrees w' = _worktrees w
      ∧ procs w' ⊆ procs w
  | Hang => False
  end.
Proof.
  unfold Service._start_worktree_process, spawn, sleep, poll_exited.
  unfold_monad.
  destruct (popen env path (now w)) as [[p pr]|]; [|done].
  cbn. set (w1 := log_event _ _).
  destruct (proc_alive w1 p) eqn:Ha; cbn; [done|].
  split_and!; [done..|].
  rewrite delete_insert_eq. apply delete_subseteq.
Qed.

Lemma create_worktree_directory_outcome sandbox_id w :
  match Service._create_worktree_directory env sandbox_id w with
  | Ret d w' => d = sandbox_dir env sandbox_id ∧ grows w w' ∧ d ∈ dirs w'
  | Raise e w' => e = OSError ∧ w' = w
  | Hang => False
  end.
Proof.
  destruct (makedirs_ok env (sandbox_dir env sandbox_id)) eqn:Hmk.
  - destruct (create_worktree_directory_grows env sandbox_id w Hmk)
      as (w1 & -> & ? & ?). done.
  - unfold Service._create_worktree_directory. fold (sandbox_dir env sandbox_id).
    unfold makedirs. unfold_monad. by rewrite Hmk.
Qed.

(** Every way [start_sandbox] can end. *)
Lemma start_sandbox_outcome sandbox_id spec_id key w :
  match Service.start_sandbox env sandbox_id spec_id key w with
  | Ret info w' =>
      ∃ wi, dict_get sandbox_id (_worktrees w') = Some wi
            ∧ info = started_info w' sandbox_id wi
            ∧ worktree_path wi = sandbox_dir env sandbox_id
            ∧ worktree_path wi ∈ dirs w'
            ∧ in_port_range env (port wi)
            ∧ socket_bind env (port wi) = BindOk
            ∧ session_api_key wi = key
            ∧ sandbox_spec_id wi = spec_id
            ∧ user_id wi = svc_user_id env
            ∧ get_sandbox_spec env spec_id = true
  | Raise e w' =>
      _worktrees w' = _worktrees w
      ∨ dict_get sandbox_id (_worktrees w') = None
  | Hang => False
  end.
Proof.
  unfold Service.start_sandbox.
  destruct (get_sandbox_spec env spec_id) eqn:Hspec; cbn [negb]; [|by left].
  unfold bind at 1.
  pose proof (find_unused_port_outcome env w) as Hport.
  inversion Hport as [p Hr Hb _ Heq | _ Heq | p e _ _ _ Heq]; [|by left..].
  clear Hport Heq.
  unfold bind at 1.
  pose proof (create_worktree_directory_outcome sandbox_id w) as Hdir.
  destruct (Service._create_worktree_directory env sandbox_id w)
    as [d w1|e w1|]; [|by destruct Hdir as [_ ->]; left|done].
  destruct Hdir as (-> & Hg & Hin).
  unfold bind at 1.
  pose proof (start_worktree_process_outcome sandbox_id p
                (sandbox_dir env sandbox_id) key w1) as Hproc.
  destruct (Service._start_worktree_process env _ _ _ _ w1) as [pr w2|e w2|];
    [| |done].
  2:{ left. destruct Hproc as (_ & _ & -> & _). by destruct Hg as (_&_&_&_&->&_). }
  destruct Hproc as (Halive & Hnow & Hdirs & Hreg).
  unfold bind at 1. unfold get at 1. unfold bind at 1. unfold modify at 1.
  set (wi := mkWorktreeInfo pr p _ _ _ _ _).
  set (w3 := set_worktrees _ w2).
  unfold bind at 1.
  destruct (wait_for_server_ready_outcome env p 30 w3)
    as (b & w4 & -> & (Hd4 & Hp4 & Hr4 & _) & _).
  destruct b; cbn [negb].
  - unfold Service._worktree_to_sandbox_info. unfold bind.
    rewrite get_sandbox_status_observed.
    exists wi. rewrite Hr4. subst w3. cbn [_worktrees set_worktrees].
    split_and!; try done.
    + apply dict_get_set.
    + rewrite Hd4. cbn. by rewrite Hdirs.
  - unfold bind at 1.
    destruct (delete_sandbox_present env sandbox_id wi w4)
      as (stopped & w5 & e & -> & _).
    { rewrite Hr4. apply dict_get_set. }
    right. unfold raise, after_delete. cbn. apply dict_get_del.
Qed.
End StartSandbox.

(** X3: launching the worker either returns a process that is alive two
    seconds after it was created, or raises [SandboxError], whatever the
    cause (the process could not be created, or it exited within the two
    seconds); in the second case the call leaves no process of its own
    behind.  Directories and registry are not touched. *)
Theorem X3_start_worktree_process_outcome
    (env : Env) (sandbox_id : string) (port : Z) (path key : string) (w : World) :
  match Service._start_worktree_process env sandbox_id port path key w with
  | Ret p w' =>
      proc_alive w' p = true ∧ now w' = now w + 2
      ∧ dirs w' = dirs w ∧ _worktrees w' = _worktrees w
  | Raise e w' =>
      e = SandboxError "Failed to start worktree process"
      ∧ dirs w' = dirs w ∧ _worktrees w' = _worktrees w
      ∧ procs w' ⊆ procs w
  | Hang => False
  end.
Proof. apply start_worktree_process_outcome. Qed.

(** X4: when [start_sandbox] returns, the registry holds a record for the
    sandbox id; the answer is built from that record and from the status
    observed at that moment and exposes the record's port; the record's
    directory is [base_working_dir/sandbox_id] and exists; its port lies in
    the scanned range and was free; it carries the session key, the spec id
    and the service's user. *)
Theorem X4_start_sandbox_success
    (env : Env) (sandbox_id spec_id key : string) (w w' : World)
    (info : Service.SandboxInfo)
    (Hok : Service.start_sandbox env sandbox_id spec_id key w = Ret info w') :
  ∃ wi, dict_get sandbox_id (_worktrees w') = Some wi
        ∧ info = started_info w' sandbox_id wi
        ∧ worktree_path wi = sandbox_dir env sandbox_id
        ∧ worktree_path wi ∈ dirs w'
        ∧ in_port_range env (port wi)
        ∧ socket_bind env (port wi) = BindOk
        ∧ session_api_key wi = key
        ∧ sandbox_spec_id wi = spec_id
        ∧ user_id wi = svc_user_id env
        ∧ get_sandbox_spec env spec_id = true.
Proof.
  pose proof (start_sandbox_outcome env sandbox_id spec_id key w) as H.
  by rewrite Hok in H.
Qed.

Lemma X4_witness :
  ∃ info w' wi,
    Service.start_sandbox Examples.env_ok "sb" "spec" "key" Examples.empty_world
    = Ret info w'
    ∧ dict_get "sb" (_worktrees w') = Some wi
    ∧ session_api_key wi = "key"
    ∧ worktree_path wi ∈ dirs w'.
Proof.
  assert (∃ info w', Service.start_sandbox Examples.env_ok "sb" "spec" "key"
                       Examples.empty_world = Ret info w')
    as (info & w' & Hrun) by (vm_compute; eauto).
  destruct (X4_start_sandbox_success Examples.env_ok "sb" "spec" "key"
              Examples.empty_world w' info Hrun)
    as (wi & Hget & _ & _ & Hdir & _ & _ & Hkey & _).
  exists info, w', wi. done.
Defined.

(** X5: a [start_sandbox] that raises leaves no record behind for a sandbox
    id that had none before: it failed before the record was stored, or the
    failed readiness wait made it delete the record again. *)
Theorem X5_failed_start_leaves_id_unregistered
    (env : Env) (sandbox_id spec_id key : string) (w w' : World) (e : exn)
    (Hnew : dict_get sandbox_id (_worktrees w) = None)
    (Hfail : Service.start_sandbox env sandbox_id spec_id key w = Raise e w') :
  dict_get sandbox_id (_worktrees w') = None.
Proof.
  pose proof (start_sandbox_outcome env sandbox_id spec_id key w) as H.
  rewrite Hfail in H. destruct H as [-> | H]; done.
Qed.

Lemma X5_witness :
  ∃ e w',
    Service.start_sandbox Examples.env_refused "sb" "spec" "key" Examples.empty_world
    = Raise e w'
    ∧ dict_get "sb" (_worktrees w') = None.
Proof.
  assert (∃ e w', Service.start_sandbox Examples.env_refused "sb" "spec" "key"
                    Examples.empty_world = Raise e w')
    as (e & w' & Hrun) by (vm_compute; eauto).
  exists e, w'. split; [exact Hrun|].
  exact (X5_failed_start_leaves_id_unregistered Examples.env_refused "sb" "spec"
           "key" Examples.empty_world w' e eq_refl Hrun).
Defined.

(** X6: right after a successful [start_sandbox], [get_sandbox] on the same
    id finds the sandbox and answers with the same id, status, creation
    time, user and spec id as [start_sandbox] did, but without exposed
    URLs. *)
Theorem X6_get_after_start
    (env : Env) (sandbox_id spec_id key : string) (w w' : World)
    (info : Service.SandboxInfo)
    (Hok : Service.start_sandbox env sandbox_id spec_id key w = Ret info w') :
  Service.get_sandbox sandbox_id w'
  = Ret (Some (Service.mkSandboxInfo (Service.id info) (Service.status info)
                 (Service.si_created_at info) (Service.si_user_id info)
                 (Service.si_sandbox_spec_id info) [])) w'
  ∧ Service.id info = sandbox_id
  ∧ length (Service.exposed_urls info) = 1.
Proof.
  pose proof (start_sandbox_outcome env sandbox_id spec_id key w) as H.
  rewrite Hok in H. destruct H as (wi & Hget & -> & _).
  rewrite get_sandbox_observed, Hget. done.
Qed.

Lemma X6_witness :
  ∃ info w',
    Service.start_sandbox Examples.env_ok "sb" "spec" "key" Examples.empty_world
    = Ret info w'
    ∧ ∃ found, Service.get_sandbox "sb" w' = Ret (Some found) w'
               ∧ Service.status found = Service.status info.
Proof.
  assert (∃ info w', Service.start_sandbox Examples.env_ok "sb" "spec" "key"
                       Examples.empty_world = Ret info w')
    as (info & w' & Hrun) by (vm_compute; eauto).
  destruct (X6_get_after_start Examples.env_ok "sb" "spec" "key"
              Examples.empty_world w' info Hrun) as (Hget & _).
  exists info, w'. split; [exact Hrun|]. eexists. split; [exact Hget|reflexivity].
Defined.

(** * Deleting leaves the other sandboxes alone *)









(** * Looking a sandbox up by its session key *)

Lemma find_key_some key items k :
  Service.find_key key items = Some k →
  ∃ wi, (k, wi) ∈ items ∧ session_api_key wi = key.
Proof.
  induction items as [|[k' wi'] rest IH]; [done|]. cbn.
  destruct (String.eqb_spec (session_api_key wi') key) as [Heq|Hne].
  - intros [= <-]. exists wi'. split; [left|done].
  - intros H. destruct (IH H) as (wi & Hin & Hkey). exists wi. split; [by right|done].
Qed.

Lemma find_key_none key items :
  Service.find_key key items = None →
  ∀ k wi, (k, wi) ∈ items → session_api_key wi ≠ key.
Proof.
  induction items as [|[k' wi'] rest IH]; intros H k wi Hin.
  - by apply elem_of_nil in Hin.
  - cbn in H.
    destruct (String.eqb_spec (session_api_key wi') key) as [Heq|Hne]; [done|].
    apply elem_of_cons in Hin as [[= -> ->]|Hin]; [done|by eapply IH].
Qed.

Lemma dict_get_elem_of {V} k (v : V) d :
  NoDup d.*1 → (k, v) ∈ d → dict_get k d = Some v.
Proof.
  induction d as [|[k' v'] rest IH]; intros Hnd Hin.
  - by apply elem_of_nil in Hin.
  - cbn in *. apply NoDup_cons in Hnd as [Hfresh Hnd].
    apply elem_of_cons in Hin as [[= -> ->]|Hin].
    + by rewrite String.eqb_refl.
    + destruct (String.eqb_spec k k') as [->|]; [|by apply IH].
      exfalso. apply Hfresh. apply list_elem_of_fmap. by exists (k', v).
Qed.

Lemma dict_get_some_elem_of {V} k (v : V) d :
  dict_get k d = Some v → (k, v) ∈ d.
Proof.
  induction d as [|[k' v'] rest IH]; [done|]. cbn.
  destruct (String.eqb_spec k k') as [->|].
  - intros [= ->]. left.
  - intros H. right. by apply IH.
Qed.

(** X8: in a registry whose ids are distinct, as the keys of a dictionary
    are, [find_sandbox_by_session_api_key] answers with a sandbox whose
    record carries that session key, and answers [None] exactly when no
    record carries it; it changes nothing. *)
Theorem X8_find_by_session_key (key : string) (w : World)
    (Hids : NoDup (_worktrees w).*1) :
  (∃ sandbox_id wi,
      Service.find_sandbox_by_session_api_key key w
      = Ret (Some (sandbox_info_of w (sandbox_id, wi))) w
      ∧ dict_get sandbox_id (_worktrees w) = Some wi
      ∧ session_api_key wi = key)
  ∨ (Service.find_sandbox_by_session_api_key key w = Ret None w
     ∧ ∀ sandbox_id wi, dict_get sandbox_id (_worktrees w) = Some wi →
                        session_api_key wi ≠ key).
Proof.
  unfold Service.find_sandbox_by_session_api_key. unfold bind, get.
  destruct (Service.find_key key (_worktrees w)) as [k|] eqn:Hfind.
  - left. destruct (find_key_some _ _ _ Hfind) as (wi & Hin & Hkey).
    exists k, wi. rewrite get_sandbox_observed.
    rewrite (dict_get_elem_of k wi _ Hids Hin). cbn. split_and!; done.
  - right. split; [reflexivity|]. intros k wi Hget.
    eapply find_key_none; [done|]. by apply dict_get_some_elem_of.
Qed.

Lemma X8_witness :
  ∃ info, Service.find_sandbox_by_session_api_key "key"
            (Examples.world_with Examples.tame)
          = Ret (Some info) (Examples.world_with Examples.tame)
          ∧ Service.id info = "sb".
Proof.
  destruct (X8_find_by_session_key "key" (Examples.world_with Examples.tame))
    as [(k & wi & Heq & Hget & Hkey) | [_ Hnone]].
  - cbn. apply NoDup_singleton.
  - exists (sandbox_info_of (Examples.world_with Examples.tame) (k, wi)).
    split; [exact Heq|]. cbn.
    cbn in Hget. destruct (String.eqb_spec k "sb") as [->|]; [done|discriminate].
  - exfalso. by apply (Hnone "sb" Examples.info_sb).
Defined.

(** * Files of a sandbox *)

Section FileAccess.
Variable env : Env.
Variable open_ok : string → bool.

Lemma makedirs_on_grows files d : ends_with grows (Files.makedirs_on env files d).
Proof.
  unfold Files.makedirs_on.
  destruct (String.eqb d ""); [apply grows_raise|].
  destruct (files !! d); [apply grows_raise|apply makedirs_grows].
Qed.

Lemma write_file_outcome files sandbox_id path content w :
  match Files.write_file env open_ok files sandbox_id path content w with
  | Ret files' w' =>
      ∃ info, dict_get sandbox_id (_worktrees w) = Some info
              ∧ files' = <[path_join (worktree_path info) path := content]> files
              ∧ open_ok (path_join (worktree_path info) path) = true
              ∧ grows w w'
  | Raise e w' =>
      grows w w'
      ∧ (dict_get sandbox_id (_worktrees w) = None →
         e = SandboxError "Sandbox not found" ∧ w' = w)
  | Hang => False
  end.
Proof.
  unfold Files.write_file. unfold bind at 1. unfold get at 1.
  destruct (dict_get sandbox_id (_worktrees w)) as [info|] eqn:Hget.
  2:{ split; [apply grows_refl|done]. }
  unfold bind at 1.
  pose proof (makedirs_on_grows files
                (dirname (path_join (worktree_path info) path)) w) as Hg.
  destruct (Files.makedirs_on env files _ w) as [[] w1|e w1|]; [| |done].
  2:{ split; [done|]. intros; discriminate. }
  unfold bind, get.
  destruct (bool_decide _); cbn; [split; [done|intros; discriminate]|].
  destruct (open_ok _) eqn:Hopen; cbn; [|split; [done|intros; discriminate]].
  exists info. done.
Qed.
End FileAccess.



(** X10: on a sandbox id that is not in the registry, [read_file] and
    [write_file] raise [SandboxError] and touch neither the disk nor
    anything else. *)
Theorem X10_file_access_unknown_sandbox
    (env : Env) (open_ok : string → bool) (files : gmap string (list Byte.byte))
    (sandbox_id path : string) (content : list Byte.byte) (w : World)
    (Hmissing : dict_get sandbox_id (_worktrees w) = None) :
  Files.read_file open_ok files sandbox_id path w
  = Raise (SandboxError "Sandbox not found") w
  ∧ Files.write_file env open_ok files sandbox_id path content w
    = Raise (SandboxError "Sandbox not found") w.
Proof.
  unfold Files.read_file, Files.write_file. unfold bind, get.
  by rewrite Hmissing.
Qed.

Lemma X10_witness :
  Files.read_file (λ _, true) ∅ "nobody" "a.txt" Examples.empty_world
  = Raise (SandboxError "Sandbox not found") Examples.empty_world.
Proof.
  exact (proj1 (X10_file_access_unknown_sandbox Examples.env_ok (λ _, true) ∅
                  "nobody" "a.txt" [] Examples.empty_world eq_refl)).
Defined.

(** X11: the path handed to [read_file] and [write_file] is not confined to
    the sandbox: a path that starts with a slash is used as it is, whatever
    the sandbox's directory, so that a successful write lands on exactly
    that absolute path. *)
Theorem X11_absolute_path_leaves_workspace
    (env : Env) (open_ok : string → bool)
    (files files' : gmap string (list Byte.byte))
    (sandbox_id path : string) (content : list Byte.byte) (w w' : World)
    (Habs : String.prefix "/" path = true)
    (Hwrite : Files.write_file env open_ok files sandbox_id path content w
              = Ret files' w') :
  files' = <[path := content]> files.
Proof.
  pose proof (write_file_outcome env open_ok files sandbox_id path content w) as H.
  rewrite Hwrite in H. destruct H as (info & _ & -> & _).
  unfold path_join. by rewrite Habs.
Qed.

Lemma X11_witness :
  ∃ files' w',
    Files.write_file Examples.env_ok (λ _, true) ∅ "s" "/x" []
      MoreExamples.world_small = Ret files' w'
    ∧ files' = {["/x" := []]}.
Proof.
  assert (∃ files' w',
            Files.write_file Examples.env_ok (λ _, true) ∅ "s" "/x" []
              MoreExamples.world_small = Ret files' w')
    as (files' & w' & Hrun) by (vm_compute; eauto).
  exists files', w'. split; [exact Hrun|].
  rewrite (X11_absolute_path_leaves_workspace Examples.env_ok (λ _, true) ∅ files'
             "s" "/x" [] MoreExamples.world_small w' eq_refl Hrun).
  apply insert_empty.
Defined.

(** * The runtime's teardown *)

Lemma only_dirs_change_refl w : only_dirs_change w w.
Proof. unfold only_dirs_change. split_and!; done. Qed.

Lemma only_dirs_change_trans w1 w2 w3 :
  only_dirs_change w1 w2 → only_dirs_change w2 w3 → only_dirs_change w1 w3.
Proof.
  unfold only_dirs_change. intros (?&?&?&?&?) (?&?&?&?&?). split_and!; congruence.
Qed.

Lemma remove_tree_subseteq p d : remove_tree p d ⊆ d.
Proof. unfold remove_tree. intros x Hx. by apply elem_of_filter in Hx as [_ ?]. Qed.

Section Teardown.
Variable env : Env.

(** [_remove_worktree] never raises.  It only takes directories away, does
    nothing when the attribute is unset or empty or the directory is
    missing, and leaves the directory removed whenever the removal of the
    tree, or git's own removal, succeeds. *)
Lemma remove_worktree_outcome w :
  ∃ w', Runtime._remove_worktree env w = Ret tt w'
        ∧ only_dirs_change w w' ∧ dirs w' ⊆ dirs w
        ∧ (∀ p, self_worktree_path w = Some p → p ∉ dirs w → w' = w)
        ∧ (self_worktree_path w = None → w' = w)
        ∧ (∀ p, self_worktree_path w = Some p → p ≠ "" →
                rmtree_ok env p = true → p ∉ dirs w').
Proof.
  unfold Runtime._remove_worktree. unfold bind at 1. unfold get at 1.
  destruct (self_worktree_path w) as [p|] eqn:Hpath.
  2:{ exists w. split_and!; done. }
  destruct (String.eqb_spec p "") as [->|Hne].
  { exists w. split_and!; try done. by intros p [= <-]. }
  unfold path_exists, run_git, rmtree_ignore_errors. unfold_monad.
  destruct (bool_decide_reflect (p ∈ dirs w)) as [Hin|Hnot]; cbn.
  2:{ exists w. split_and!; try done. by intros p' [= <-]. }
  destruct (git_ok env _ (dirs w)); cbn.
  - rewrite (bool_decide_eq_false_2 _ (not_in_remove_tree p (dirs w))).
    eexists. split; [reflexivity|]. cbn.
    split_and!; try done.
    + apply remove_tree_subseteq.
    + by intros p' [= <-].
    + intros p' [= <-] _ _. apply not_in_remove_tree.
  - rewrite (bool_decide_eq_true_2 _ Hin).
    eexists. split; [reflexivity|].
    destruct (rmtree_ok env p) eqn:Hrm; cbn; split_and!; try done;
      try apply remove_tree_subseteq;
      try (by intros p' [= <-]);
      intros p' [= <-] _ Hrm'; (apply not_in_remove_tree || congruence).
Qed.

(** What [_stop_server] can end in. *)
Lemma stop_server_outcome w :
  match Runtime._stop_server w with
  | Ret _ w' =>
      _server_info w' = None
      ∧ dirs w' = dirs w ∧ _worktrees w' = _worktrees w
      ∧ self_worktree_path w' = self_worktree_path w
      ∧ now w ≤ now w'
      ∧ (∀ info, _server_info w = Some info →
                 (∀ pr, procs w !! process info = Some pr → denied_signal pr = false) →
                 proc_alive w' (process info) = false)
  | Raise _ _ => False
  | Hang => True
  end.
Proof.
  remember (Runtime._stop_server w) as r eqn:Hr.
  unfold Runtime._stop_server, poll_exited, popen_terminate, popen_kill,
    deliver, wait_exit in Hr. unfold_monad.
  destruct (_server_info w) as [info|] eqn:Hinfo.
  2:{ subst r. split_and!; done || lia. }
  destruct (proc_alive w (process info)) eqn:Ha; cbn [negb] in Hr.
  2:{ subst r. cbn. split_and!; try done; try lia. by intros ? [= <-] _. }
  destruct (procs w !! process info) as [[ex dl ds td kd]|] eqn:Hp.
  2:{ rewrite proc_alive_eq, Hp in Ha. done. }
  cbn [denied_signal] in Hr. rewrite ?Ha in Hr.
  destruct ds.
  { subst r. cbn. split_and!; try done; try lia.
    intros ? [= <-] Hsig. by specialize (Hsig _ Hp). }
  cbn in Hr. rewrite !lookup_insert_eq in Hr. cbn in Hr.
  assert (Hdead : ∀ w0, proc_alive
            (set_server_info None (set_procs (delete (process info)) w0))
            (process info) = false).
  { intros w0. rewrite proc_alive_eq. cbn. by rewrite lookup_delete_eq. }
  destruct (omin ex _) as [t|] eqn:Ht.
  - destruct (Nat.leb_spec t (now w + 5)) as [Hle|Hgt].
    + subst r. cbn. split_and!; try done; try lia.
      intros ? [= <-] _. apply Hdead.
    + cbn in Hr. rewrite lookup_insert_eq in Hr.
      rewrite proc_alive_eq in Hr. cbn in Hr.
      rewrite lookup_insert_eq in Hr. cbn in Hr. rewrite Ht in Hr.
      destruct (Nat.ltb_spec (now w + 5) t) as [_|]; [|lia].
      cbn in Hr. rewrite lookup_insert_eq in Hr. cbn in Hr. rewrite Ht in Hr.
      destruct (omin (Some t) _) as [t2|] eqn:Ht2; [|by destruct kd].
      subst r. cbn. split_and!; try done; try lia.
      intros ? [= <-] _. apply Hdead.
  - cbn in Hr. rewrite lookup_insert_eq in Hr.
    rewrite proc_alive_eq in Hr. cbn in Hr.
    rewrite lookup_insert_eq in Hr. cbn in Hr. rewrite Ht in Hr.
    cbn in Hr. rewrite lookup_insert_eq in Hr. cbn in Hr. rewrite Ht in Hr.
    destruct (omin None _) as [t2|] eqn:Ht2; subst r; [|done].
    cbn. split_and!; try done; try lia.
    intros ? [= <-] _. apply Hdead.
Qed.

Lemma stop_server_unset w :
  _server_info w = None → Runtime._stop_server w = Ret tt w.
Proof. intros H. unfold Runtime._stop_server. unfold_monad. by rewrite H. Qed.
End Teardown.



(** X13: [_stop_server] never raises.  When it returns, the runtime holds
    no server handle, no directory and no worktree path has changed, a
    second call does nothing, and the server process is no longer alive
    unless signalling it was refused. *)
Theorem X13_stop_server_outcome (w : World) :
  match Runtime._stop_server w with
  | Ret _ w' =>
      _server_info w' = None
      ∧ dirs w' = dirs w
      ∧ self_worktree_path w' = self_worktree_path w
      ∧ Runtime._stop_server w' = Ret tt w'
      ∧ (∀ info, _server_info w = Some info →
                 (∀ pr, procs w !! process info = Some pr → denied_signal pr = false) →
                 proc_alive w' (process info) = false)
  | Raise _ _ => False
  | Hang => True
  end.
Proof.
  pose proof (stop_server_outcome w) as H.
  destruct (Runtime._stop_server w) as [[] w'|e w'|]; [|done..].
  destruct H as (Hnone & Hdirs & _ & Hpath & _ & Hdead).
  split_and!; [done | done | done | by apply stop_server_unset | done].
Qed.

Lemma X13_witness :
  ∃ w', Runtime._stop_server (Examples.runtime_with Examples.tame) = Ret tt w'
        ∧ _server_info w' = None
        ∧ proc_alive w' 100 = false.
Proof.
  assert (∃ w', Runtime._stop_server (Examples.runtime_with Examples.tame)
                = Ret tt w') as (w' & Hrun) by (vm_compute; eauto).
  pose proof (X13_stop_server_outcome (Examples.runtime_with Examples.tame)) as H.
  rewrite Hrun in H. destruct H as (Hnone & _ & _ & _ & Hdead).
  exists w'. split_and!; [exact Hrun | exact Hnone |].
  apply (Hdead Examples.server_100 eq_refl).
  intros pr Hpr. vm_compute in Hpr. by injection Hpr as <-.
Defined.

(** X14: [pause] keeps the workspace: when it returns, the directories and
    the worktree path are as before and the server handle is gone, so that
    a second [pause] raises [RuntimeError('Server not started')]; it raises
    that error, and changes nothing, exactly when no server was started. *)
Theorem X14_pause_keeps_workspace (w : World) :
  match Runtime.pause w with
  | Ret _ w' =>
      dirs w' = dirs w
      ∧ self_worktree_path w' = self_worktree_path w
      ∧ _server_info w' = None
      ∧ Runtime.pause w' = Raise (RuntimeError "Server not started") w'
  | Raise e w' =>
      e = RuntimeError "Server not started" ∧ w' = w ∧ _server_info w = None
  | Hang => is_Some (_server_info w)
  end.
Proof.
  unfold Runtime.pause. unfold bind at 1. unfold get at 1.
  destruct (_server_info w) as [info|] eqn:Hinfo; [|done].
  pose proof (stop_server_outcome w) as H.
  destruct (Runtime._stop_server w) as [[] w'|e w'|]; [|done|done].
  destruct H as (Hnone & Hdirs & _ & Hpath & _).
  split_and!; [done..|]. unfold bind, get. by rewrite Hnone.
Qed.

(** * The runtime's start-up *)

Section StartUp.
Variable env : Env.

Lemma start_server_outcome w :
  match Runtime._start_server env w with
  | Ret info w' =>
      ∃ p pr, self_worktree_path w = Some p ∧ p ≠ ""
              ∧ si_worktree_path info = p
              ∧ si_worktree_name info = Runtime.worktree_name env
              ∧ popen env p (now w) = Some (process info, pr)
              ∧ w' = log_event (EvSpawn p (process info))
                       (set_procs (<[process info := pr]>) w)
  | Raise e w' =>
      w' = w
      ∧ (e = RuntimeError "Worktree not created"
         ∨ e = AgentRuntimeError "Failed to start server process")
  | Hang => False
  end.
Proof.
  unfold Runtime._start_server. unfold bind at 1. unfold get at 1.
  destruct (self_worktree_path w) as [p|]; [|split; [done|by left]].
  destruct (String.eqb_spec p "") as [->|Hne]; [split; [done|by left]|].
  destruct (Runtime._find_available_ports env) as [[ep vp] aps].
  unfold spawn. unfold_monad.
  destruct (popen env p (now w)) as [[q pr]|] eqn:Hpopen.
  - exists p, pr. done.
  - split; [done|by right].
Qed.

(** While [wait_until_alive] runs, only time passes. *)
Lemma attempt_time_passes w :
  match Runtime.wait_until_alive_attempt env w with
  | Ret _ w' | Raise _ w' => time_passes w w'
  | Hang => False
  end.
Proof.
  unfold Runtime.wait_until_alive_attempt, poll_exited, Runtime.run_check_if_alive.
  unfold_monad. unfold time_passes.
  destruct (_server_info w) as [info|] eqn:Hinfo;
    [|split_and!; (done || lia)].
  destruct (proc_alive w (process info)); cbn; [|split_and!; (done || lia)].
  destruct (check_if_alive env _ _) as [[e|] d]; cbn; split_and!; (done || lia).
Qed.

Lemma retry_loop_time_passes start fuel w :
  match Runtime.retry_loop env fuel start w with
  | Ret _ w' | Raise _ w' => time_passes w w'
  | Hang => True
  end.
Proof.
  revert w. induction fuel as [|k IH]; intros w; [done|].
  rewrite retry_loop_S. unfold try_except.
  pose proof (attempt_time_passes w) as Hstep.
  destruct (Runtime.wait_until_alive_attempt env w) as [[] w1|e w1|];
    [done| |done].
  destruct (Runtime.retryable e); [|done].
  unfold bind at 1. unfold get.
  destruct (_ || _); [done|].
  unfold bind, sleep, modify.
  specialize (IH (log_event (EvSleep 2) (set_now (now w1 + 2) w1))).
  match goal with |- match ?r with _ => _ end => destruct r end; [| |done].
  - eapply time_passes_trans; [exact Hstep|].
    eapply time_passes_trans; [|exact IH].
    unfold time_passes. cbn. split_and!; (done || lia).
  - eapply time_passes_trans; [exact Hstep|].
    eapply time_passes_trans; [|exact IH].
    unfold time_passes. cbn. split_and!; (done || lia).
Qed.

Lemma wait_until_alive_time_passes w :
  match Runtime.wait_until_alive env w with
  | Ret _ w' | Raise _ w' => time_passes w w'
  | Hang => False
  end.
Proof.
  pose proof (wait_until_alive_total env w) as Hnohang.
  unfold Runtime.wait_until_alive in *. unfold bind, get in *.
  pose proof (retry_loop_time_passes (now w) 61 w) as H.
  destruct (Runtime.retry_loop env 61 (now w) w); done.
Qed.

(** What [_create_worktree] can end in. *)
Lemma create_worktree_outcome w :
  match Runtime._create_worktree env w with
  | Ret p w' => p = worktree_dir env ∧ p ∈ dirs w' ∧ only_dirs_change w w'
  | Raise e w' =>
      (e = OSError ∨ ∃ msg, e = AgentRuntimeError msg) ∧ only_dirs_change w w'
  | Hang => False
  end.
Proof.
  unfold Runtime._create_worktree. fold (worktree_dir env).
  unfold bind at 1.
  pose proof (init_base_repository_grows env w) as H1.
  assert (Hexn : ∀ e w1, Runtime._init_base_repository env w = Raise e w1 →
                         ∃ msg, e = AgentRuntimeError msg).
  { unfold Runtime._init_base_repository, Runtime._is_git_repository, run_git,
      Runtime.on_CalledProcessError.
    unfold_monad. intros e w1.
    repeat match goal with
           | |- context [git_ok ?e ?c ?d] => destruct (git_ok e c d); cbn
           end; intros [= <- <-]; eauto. }
  assert (Hg : ∀ a b, grows a b → only_dirs_change a b).
  { intros a b (_&_&?&?&?&?&?). by split_and!. }
  destruct (Runtime._init_base_repository env w) as [[] w1|e w1|]; [| |done].
  2:{ split; [right; by eapply Hexn|by apply Hg]. }
  unfold bind at 1.
  pose proof (makedirs_grows env (Runtime._get_worktree_base_dir env) w1) as H2.
  assert (Hmk : ∀ e w2, makedirs env (Runtime._get_worktree_base_dir env) w1
                        = Raise e w2 → e = OSError).
  { unfold makedirs. intros e w2. destruct (makedirs_ok _ _); by intros [= <- <-]. }
  destruct (makedirs env _ w1) as [[] w2|e w2|]; [| |done].
  2:{ split; [left; by eapply Hmk|]. apply Hg. by eapply grows_trans. }
  pose proof (Hg _ _ (grows_trans _ _ _ H1 H2)) as H12.
  unfold bind at 1. unfold path_exists at 1.
  unfold bind at 1.
  destruct (remove_worktree_outcome env w2) as (w3 & Hrm & H23 & _).
  assert (∃ w3', (if bool_decide (worktree_dir env ∈ dirs w2)
                  then Runtime._remove_worktree env else ret tt) w2 = Ret tt w3'
                 ∧ only_dirs_change w w3') as (w3' & -> & H13).
  { destruct (bool_decide _); [exists w3|exists w2]; split; try done.
    by eapply only_dirs_change_trans. }
  unfold run_git, Runtime.on_CalledProcessError. unfold_monad.
  repeat match goal with
         | |- context [git_ok ?e ?c ?d] => destruct (git_ok e c d); cbn
         end;
    try (split; [right; eauto|]); try (split_and!; [done|set_solver|]);
    (eapply only_dirs_change_trans; [exact H13|]);
    unfold only_dirs_change; cbn; split_and!; done.
Qed.
End StartUp.

(** X15: [resume] always comes back and never touches the workspace: in
    every outcome the directories and the worktree path are as before.  On
    success the new server handle records that same worktree path; without
    a worktree path it raises [RuntimeError('Worktree not created')] and
    changes nothing. *)
Theorem X15_resume_keeps_workspace (env : Env) (w : World) :
  match Runtime.resume env w with
  | Ret _ w' =>
      dirs w' = dirs w
      ∧ self_worktree_path w' = self_worktree_path w
      ∧ ∃ info, _server_info w' = Some info
                ∧ self_worktree_path w = Some (si_worktree_path info)
  | Raise e w' =>
      dirs w' = dirs w
      ∧ self_worktree_path w' = self_worktree_path w
      ∧ (self_worktree_path w = None →
         e = RuntimeError "Worktree not created" ∧ w' = w)
  | Hang => False
  end.
Proof.
  unfold Runtime.resume. unfold bind at 1. unfold get at 1.
  destruct (self_worktree_path w) as [p|] eqn:Hpath; [|done].
  unfold bind at 1.
  pose proof (start_server_outcome env w) as Hstart.
  destruct (Runtime._start_server env w) as [info w1|e w1|]; [| |done].
  2:{ destruct Hstart as [-> _]. by rewrite Hpath. }
  destruct Hstart as (p' & pr & Hp' & _ & Hsi & _ & _ & ->).
  unfold bind at 1. unfold modify at 1.
  set (w2 := set_server_info _ _).
  pose proof (wait_until_alive_time_passes env w2) as Hwait.
  destruct (Runtime.wait_until_alive env w2) as [[] w3|e w3|]; [| |done];
    destruct Hwait as (Hd & _ & _ & Hs & Hi & _).
  - rewrite Hd, Hs, Hi. subst w2. cbn. split_and!; [done | done |].
    exists info. split; [done|]. congruence.
  - rewrite Hd, Hs. subst w2. cbn. rewrite Hpath. done.
Qed.

Lemma X15_witness :
  Runtime.resume Examples.env_ok Examples.empty_world
  = Raise (RuntimeError "Worktree not created") Examples.empty_world.
Proof.
  pose proof (X15_resume_keeps_workspace Examples.env_ok Examples.empty_world) as H.
  destruct (Runtime.resume Examples.env_ok Examples.empty_world)
    as [[] w'|e w'|]; [by destruct H as (_ & _ & info & _ & ?) | | done].
  destruct H as (_ & _ & Hnone). by destruct (Hnone eq_refl) as [-> ->].
Defined.

Lemma optional_wait_time_passes env w :
  match (if negb (attach_to_existing env)
         then Runtime.wait_until_alive env else ret tt) w with
  | Ret _ w' | Raise _ w' => time_passes w w'
  | Hang => False
  end.
Proof.
  destruct (attach_to_existing env); cbn.
  - apply time_passes_refl.
  - apply wait_until_alive_time_passes.
Qed.

Lemma optional_setup_changes_nothing env w :
  match (if negb (attach_to_existing env)
         then Runtime.run_setup_initial_env env else ret tt) w with
  | Ret _ w' | Raise _ w' => w' = w
  | Hang => False
  end.
Proof.
  unfold Runtime.run_setup_initial_env.
  destruct (attach_to_existing env); cbn; [done|].
  by destruct (setup_initial_env env).
Qed.

(** X16: when [connect] returns, the worktree path is set to
    [base/openhands-worktree-<sid>], that directory exists, the server
    handle is set, records the same path and names a process of the process
    table, and the runtime is marked initialized. *)
Theorem X16_connect_success (env : Env) (w w' : World)
    (Hok : Runtime.connect env w = Ret tt w') :
  self_worktree_path w' = Some (worktree_dir env)
  ∧ worktree_dir env ∈ dirs w'
  ∧ _runtime_initialized w' = true
  ∧ ∃ info, _server_info w' = Some info
            ∧ si_worktree_path info = worktree_dir env
            ∧ is_Some (procs w' !! process info).
Proof.
  unfold Runtime.connect, except_Exception, try_except in Hok.
  match type of Hok with
  | match ?body w with _ => _ end = _ =>
      destruct (body w) as [[] w0|e w0|] eqn:Hbody
  end.
  2:{ unfold bind in Hok.
      destruct (Runtime._stop_server w0) as [[] w1|e1 w1|]; [|done..].
      by destruct (Runtime._remove_worktree env w1). }
  2:{ done. }
  injection Hok as ->. revert Hbody.
  unfold bind at 1.
  pose proof (create_worktree_outcome env w) as Hcreate.
  destruct (Runtime._create_worktree env w) as [p w1|e w1|]; [|done..].
  destruct Hcreate as (-> & Hin & _).
  unfold bind at 1. unfold modify at 1.
  set (w2 := set_self_worktree_path _ w1).
  unfold bind at 1.
  pose proof (start_server_outcome env w2) as Hstart.
  destruct (Runtime._start_server env w2) as [info w3|e w3|]; [|done..].
  destruct Hstart as (p' & pr & Hp' & _ & Hsi & _ & _ & ->).
  subst w2. cbn in Hp'. injection Hp' as <-.
  unfold bind at 1. unfold modify at 1.
  set (w4 := set_server_info _ _).
  unfold bind at 1.
  pose proof (optional_wait_time_passes env w4) as Hwait.
  destruct ((if negb (attach_to_existing env)
             then Runtime.wait_until_alive env else ret tt) w4)
    as [[] w5|e w5|]; [|done..].
  destruct Hwait as (Hd & Hp & _ & Hs & Hi & _).
  unfold bind at 1.
  pose proof (optional_setup_changes_nothing env w5) as Hsetup.
  destruct ((if negb (attach_to_existing env)
             then Runtime.run_setup_initial_env env else ret tt) w5)
    as [[] w6|e w6|]; [|done..].
  subst w6. unfold modify. intros [= <-]. cbn.
  rewrite Hd, Hs, Hi, Hp. subst w4. cbn.
  split_and!; [done | done | done |].
  exists info. split_and!; [done | done |]. rewrite lookup_insert_eq. eauto.
Qed.

Lemma X16_witness :
  ∃ w', Runtime.connect Examples.env_ok Examples.empty_world = Ret tt w'
        ∧ self_worktree_path w'
          = Some "/tmp/openhands-worktrees/openhands-worktree-s1".
Proof.
  assert (∃ w', Runtime.connect Examples.env_ok Examples.empty_world = Ret tt w')
    as (w' & Hrun) by (vm_compute; eauto).
  exists w'. split; [exact Hrun|].
  exact (proj1 (X16_connect_success Examples.env_ok Examples.empty_world w' Hrun)).
Defined.





(** X19: [delete] works on the directory that [_create_worktree] creates
    for the same session id, provided the base-directory variable of the
    environment is unset or not empty (an empty value makes
    [_get_worktree_base_dir] fall back to the temporary directory, while
    [delete] takes it as it is). *)
Theorem X19_delete_path_agrees (env : Env)
    (Hbase : environ_worktree_base_dir env ≠ Some "") :
  Lifecycle.delete_path env (sid env) = worktree_dir env.
Proof.
  unfold Lifecycle.delete_path, worktree_dir, Runtime._get_worktree_base_dir,
    Runtime.worktree_name.
  destruct (environ_worktree_base_dir env) as [d|]; [|done].
  destruct (String.eqb_spec d "") as [->|]; done.
Qed.

Lemma X19_witness :
  Lifecycle.delete_path Examples.env_ok "s1"
  = "/tmp/openhands-worktrees/openhands-worktree-s1".
Proof.
  exact (eq_trans (X19_delete_path_agrees Examples.env_ok ltac:(discriminate))
           eq_refl).
Defined.

Lemma find_listed_worktree_basename name lines p :
  Lifecycle.find_listed_worktree name lines = Some p → basename p = name.
Proof.
  induction lines as [|line rest IH]; [done|]. cbn.
  destruct (String.prefix "worktree " line); [|done].
  destruct (String.eqb_spec (basename (after_first_space line)) name); [|done].
  by intros [= <-].
Qed.

(** X20: [delete] never raises.  It does nothing when the directory of the
    conversation does not exist.  Whatever it removes is either that
    directory or a git worktree whose last path component is
    [openhands-worktree-<conversation id>]; and when the listing of the
    worktrees could be read and the removal of the tree succeeds, the
    directory is gone afterwards. *)
Theorem X20_delete_removes_only_its_worktree
    (env : Env) (cwd : string) (listing : exn + string) (conversation_id : string)
    (w : World) :
  ∃ w' evs,
    Lifecycle.delete env cwd listing conversation_id w = Ret tt w'
    ∧ trace w' = trace w ++ evs
    ∧ Forall (removal_of cwd (Lifecycle.delete_path env conversation_id)
                (Runtime.WORKTREE_NAME_PREFIX ++ conversation_id)%string) evs
    ∧ only_dirs_change w w'
    ∧ (if bool_decide (Lifecycle.delete_path env conversation_id ∈ dirs w)
       then match listing with
            | inr _ => rmtree_ok env (Lifecycle.delete_path env conversation_id)
                       = true →
                       Lifecycle.delete_path env conversation_id ∉ dirs w'
            | inl _ => w' = w
            end
       else w' = w).
Proof.
  unfold Lifecycle.delete.
  set (path := Lifecycle.delete_path env conversation_id).
  set (name := (Runtime.WORKTREE_NAME_PREFIX ++ conversation_id)%string).
  unfold path_exists at 1. unfold bind at 1.
  destruct (bool_decide_reflect (path ∈ dirs w)) as [Hin|Hnot].
  2:{ exists w, []. rewrite app_nil_r. split_and!; done. }
  destruct listing as [e|out].
  { exists w, []. rewrite app_nil_r. split_and!; done. }
  unfold path_exists, run_git, rmtree_ignore_errors. unfold_monad.
  destruct (Lifecycle.find_listed_worktree name (split_on "010" out))
    as [p|] eqn:Hfind.
  - apply find_listed_worktree_basename in Hfind.
    assert (Hgit : removal_of cwd path name (EvGit (GitWorktreeRemove cwd p))).
    { right. by exists p. }
    assert (Hrm : removal_of cwd path name (EvRmtree path)) by (by left).
    destruct (git_ok env _ (dirs w)); cbn.
    + destruct (bool_decide_reflect (path ∈ remove_tree p (dirs w))) as [Hstill|Hgone].
      * eexists _, [_; _]. split; [reflexivity|].
        destruct (rmtree_ok env path) eqn:Hok; cbn;
          rewrite <- ?app_assoc; split_and!; try done;
          try (by repeat first [assumption | apply Forall_nil_2 | apply Forall_cons_2]);
          try (intros _; apply not_in_remove_tree).
      * eexists _, [_]. split; [reflexivity|]. cbn.
        split_and!; try done. by repeat first [assumption | apply Forall_nil_2 | apply Forall_cons_2].
    + rewrite (bool_decide_eq_true_2 _ Hin).
      eexists _, [_; _]. split; [reflexivity|].
      destruct (rmtree_ok env path) eqn:Hok; cbn;
        rewrite <- ?app_assoc; split_and!; try done;
        try (by repeat first [assumption | apply Forall_nil_2 | apply Forall_cons_2]);
        try (intros _; apply not_in_remove_tree).
  - cbn. rewrite (bool_decide_eq_true_2 _ Hin).
    assert (Hrm : removal_of cwd path name (EvRmtree path)) by (by left).
    eexists _, [_]. split; [reflexivity|].
    destruct (rmtree_ok env path) eqn:Hok; cbn; split_and!; try done;
      try (by repeat first [assumption | apply Forall_nil_2 | apply Forall_cons_2]);
      try (intros _; apply not_in_remove_tree).
Qed.

Lemma X20_witness :
  ∃ w', Lifecycle.delete Examples.env_ok "/repo" (inr "") "s1" Examples.world_stale
        = Ret tt w'
        ∧ "/tmp/openhands-worktrees/openhands-worktree-s1" ∉ dirs w'.
Proof.
  destruct (X20_delete_removes_only_its_worktree Examples.env_ok "/repo" (inr "")
              "s1" Examples.world_stale) as (w' & evs & Heq & _ & _ & _ & Hgone).
  exists w'. split; [exact Heq|].
  rewrite bool_decide_eq_true_2 in Hgone.
  - by apply Hgone.
  - apply (bool_decide_unpack _). vm_compute. exact I.
Defined.

(** * The runtime's properties *)

Lemma host_url_inj p q : host_url p = host_url q → p = q.
Proof.
  unfold host_url. intros H. cbn in H. simplify_eq. by apply (inj pretty).
Qed.

Lemma dict_get_set_ne {V} k k' (v : V) d :
  k ≠ k' → dict_get k (dict_set k' v d) = dict_get k d.
Proof.
  intros Hne. induction d as [|[k0 v0] rest IH]; cbn.
  - by destruct (String.eqb_spec k k').
  - destruct (String.eqb_spec k' k0) as [->|]; cbn.
    + by destruct (String.eqb_spec k k0).
    + by destruct (String.eqb_spec k k0).
Qed.

Lemma web_hosts_from_lookup ports hosts p :
  dict_get (host_url p) (Lifecycle.web_hosts_from ports hosts)
  = if decide (p ∈ ports) then Some p else dict_get (host_url p) hosts.
Proof.
  revert hosts. induction ports as [|q rest IH]; intros hosts; cbn.
  - by rewrite decide_False by apply not_elem_of_nil.
  - rewrite IH. fold (host_url q).
    destruct (decide (p ∈ rest)) as [Hin|Hout].
    + by rewrite decide_True by (by right).
    + destruct (decide (p = q)) as [->|Hne].
      * rewrite decide_True by left. apply dict_get_set.
      * rewrite decide_False by (by intros [?|?]%elem_of_cons).
        apply dict_get_set_ne. by intros ?%host_url_inj.
Qed.

(** X21: [web_hosts] is empty before the server is started; afterwards it
    maps the URL [http://localhost:<port>] of every application port, and of
    no other port, to that port. *)
Theorem X21_web_hosts (w : World) (p : Z) :
  dict_get (host_url p) (Lifecycle.web_hosts w)
  = match _server_info w with
    | Some info => if decide (p ∈ app_ports info) then Some p else None
    | None => None
    end.
Proof.
  unfold Lifecycle.web_hosts. destruct (_server_info w) as [info|]; [|done].
  by rewrite web_hosts_from_lookup.
Qed.


